(** * Notebook glue code of the Azure Cognitive Search / Azure OpenAI accelerator

    A shallow embedding of the Python cells of
    - [04-Complex-Docs.ipynb]  (index upload loop, the documents built
      from the search results, token counting, strategy selection and the
      loading of the chain),
    - [06-TabularDataQA.ipynb] (the five-attempt retry loop and the
      evaluation of the answer on the dataframe),
    - [09-API-Search.ipynb]    (the two agent tools, the two-attempt
      retry loop and [printmd]),
    together with the properties the specification states about them
    (Part II) and further properties of the cells (Part III).

    Python [int] is [Z]; Python [float] is IEEE binary64, taken from the
    standard library's [SpecFloat]; [str] is [string]; a [dict] literal whose
    order is observable is an association list.  Calls that leave the
    notebook (HTTP, the embedding model, the completion model, the agent
    executor) are answered by oracles that see the whole history of earlier
    calls; every such call is appended to a trace. *)

From Stdlib Require Import ZArith QArith List String Ascii Bool Lia.
From Stdlib Require Import DecimalString DecimalZ DecimalPos.
From Stdlib Require Import Permutation.
From Stdlib Require Import Floats.SpecFloat.
Import ListNotations.

Set Implicit Arguments.
Local Open Scope string_scope.
Local Open Scope Z_scope.

(* ================================================================== *)
(** * Part I.  The embedding                                           *)
(* ================================================================== *)

(** ** A fragment of Python *)
Module Py.

(** An exception object: its class name, whether the class derives from
    [Exception] (as opposed to [BaseException] only, like
    [KeyboardInterrupt]), and what [str(e)] gives. *)
Record exn : Type := mk_exn
  { exn_class : string;
    exn_is_Exception : bool;
    exn_str : string }.

(** The result of evaluating an expression or a call. *)
Inductive outcome (A : Type) : Type :=
| Returns (a : A)
| Raises (e : exn).
Arguments Raises {A} e.

(** The two kinds of object a tool of notebook 09 can hand back. *)
Inductive value : Type :=
| VStr (s : string)
| VExc (e : exn).

Definition is_str (v : value) : bool :=
  match v with VStr _ => true | VExc _ => false end.

(** What a cell can observe and change outside its variables: the trace
    of external calls (oldest first) and the lines printed so far. *)
Record World (E : Type) : Type := mk_World
  { trace : list E;
    stdout : list string }.

Definition initial_world {E : Type} : World E := mk_World [] [].

(** State and exception monad of a cell body over a state [S]. *)
Definition M (S A : Type) : Type := S -> outcome A * S.

Definition ret {S A} (a : A) : M S A := fun w => (Returns a, w).

Definition raise {S A} (e : exn) : M S A := fun w => (Raises e, w).

Definition bind {S A B} (c : M S A) (k : A -> M S B) : M S B :=
  fun w => match c w with
           | (Returns a, w') => k a w'
           | (Raises e, w') => (Raises e, w')
           end.

(** Evaluate an expression that may raise. *)
Definition eval {S A} (o : outcome A) : M S A := fun w => (o, w).

(** Update the state. *)
Definition modify {S} (f : S -> S) : M S unit := fun w => (Returns tt, f w).

(** [try: body  except Exception as e: handler e].  A [BaseException] that
    is not an [Exception] is not caught. *)
Definition try_except_Exception {S A} (body : M S A) (handler : exn -> M S A)
  : M S A :=
  fun w => match body w with
           | (Returns a, w') => (Returns a, w')
           | (Raises e, w') =>
               if exn_is_Exception e then handler e w' else (Raises e, w')
           end.

(** [try: body  except: handler] catches everything. *)
Definition try_except_all {S A} (body : M S A) (handler : M S A) : M S A :=
  fun w => match body w with
           | (Returns a, w') => (Returns a, w')
           | (Raises _, w') => handler w'
           end.

(** An external call: the oracle answers from the history and the
    argument, and the call is recorded. *)
Definition external {E A} (ev : E) (answer : list E -> outcome A)
  : M (World E) A :=
  fun w => (answer (trace w), mk_World (trace w ++ [ev]) (stdout w)).

(** [print(line)] *)
Definition print {E} (line : string) : M (World E) unit :=
  fun w => (Returns tt, mk_World (trace w) (stdout w ++ [line])).

(** [d[key]] for a dictionary written as a literal; the last binding of a
    key wins. *)
Fixpoint dict_get (d : list (string * string)) (key : string) : option string :=
  match d with
  | [] => None
  | (k, v) :: rest =>
      match dict_get rest key with
      | Some v' => Some v'
      | None => if (k =? key)%string then Some v else None
      end
  end.

(** [str(n)] for an [int]. *)
Definition str_of_int (n : Z) : string := NilZero.string_of_int (Z.to_int n).

(** *** binary64 arithmetic *)

Definition prec : Z := 53.
Definition emax : Z := 1024.

Definition float : Type := spec_float.

(** The literal [0.9], i.e. the double [0x1.ccccccccccccdp-1]. *)
Definition float_0_9 : float := S754_finite false 8106479329266893 (-53).

(** [float(n)] as done by the implicit conversion of [float * int]:
    round to nearest even, [OverflowError] when out of range. *)
Definition float_of_int (n : Z) : outcome float :=
  match binary_normalize prec emax n 0 false with
  | S754_infinity _ =>
      Raises (mk_exn "OverflowError" true "int too large to convert to float")
  | f => Returns f
  end.

Definition float_mul (x y : float) : float := SFmul prec emax x y.

(** [n > f] for an [int] [n] and a [float] [f]: Python compares the two
    exactly, without rounding [n]. *)
Definition int_gt_float (n : Z) (f : float) : bool :=
  match f with
  | S754_nan => false
  | S754_infinity s => s
  | S754_zero _ => 0 <? n
  | S754_finite s m e =>
      let mz := if s then Zneg m else Zpos m in
      match e with
      | Zneg p => mz <? n * Z.pow_pos 2 p
      | _ => mz * 2 ^ e <? n
      end
  end.

(** The integer part [floor f] of a finite float. *)
Definition float_floor (f : float) : option Z :=
  match f with
  | S754_zero _ => Some 0
  | S754_finite s m e =>
      let mz := if s then Zneg m else Zpos m in
      Some match e with
           | Zneg p => mz / Z.pow_pos 2 p
           | _ => mz * 2 ^ e
           end
  | _ => None
  end.

End Py.

Import Py.

Declare Scope py_scope.
Delimit Scope py_scope with py.
Notation "x <- c ;; k" := (bind c (fun x => k))
  (at level 61, c at next level, right associativity) : py_scope.
Notation "c ;; k" := (bind c (fun _ => k))
  (at level 61, right associativity) : py_scope.
Local Open Scope py_scope.

(** ** 04-Complex-Docs.ipynb *)
Module ComplexDocs.

(** A page as [parse_pdf] gives it: [(page index, offset, text)]. *)
Definition page : Type := (Z * Z * string)%type.

(** [langchain.docstore.document.Document] as the notebook builds it. *)
Record Document : Type := mk_Document
  { page_content : string;
    metadata_source : string }.

(** One entry of the ["value"] list of an upload payload. *)
Record index_document : Type := mk_index_document
  { doc_id : string;
    doc_title : string;
    doc_chunk : string;
    doc_chunkVector : list float;
    doc_name : string;
    doc_location : string;
    doc_page_num : Z;
    doc_search_action : string }.

Record http_response : Type := mk_http_response
  { status_code : Z;
    text : string }.

(** Calls that leave the notebook. *)
Inductive event : Type :=
| EmbedQuery (input : string)
| Post (url : string) (value : list index_document)
       (headers params : list (string * string)).

(** What the notebook imports or reads from its environment:
    [common/utils.py], [common/prompts.py], [os.environ], the embedding
    deployment and the search service. *)
Class Externals : Type :=
  { text_to_base64 : string -> string;
    model_tokens_limit : string -> Z;
    num_tokens_from_string : string -> Z;
    num_tokens_from_docs : list Document -> Z;
    COMBINE_PROMPT_TEMPLATE : string;
    AZURE_SEARCH_ENDPOINT : string;
    AZURE_SEARCH_KEY : string;
    AZURE_SEARCH_API_VERSION : string;
    embedder_answer : string -> list event -> outcome (list float);
    search_service_answer :
      string -> list index_document -> list event -> outcome http_response }.

Definition BLOB_CONTAINER_NAME : string := "books".
Definition BASE_CONTAINER_URL : string :=
  "https://blobstoragejed5nzg3k2jp6.blob.core.windows.net/"
    ++ BLOB_CONTAINER_NAME ++ "/".
Definition MODEL : string := "gpt-4-32k".
Definition book_index_name : string := "cogsrch-index-books-vector-ykilinc".
Definition COMPLETION_TOKENS : Z := 1000.

Section Cells.
Context `{Externals}.

Definition headers : list (string * string) :=
  [("Content-Type", "application/json"); ("api-key", AZURE_SEARCH_KEY)].
Definition params : list (string * string) :=
  [("api-version", AZURE_SEARCH_API_VERSION)].

(** [embedder.embed_query(text)] *)
Definition embed_query (input : string) : M (World event) (list float) :=
  external (EmbedQuery input) (embedder_answer input).

(** [requests.post(url, data=json.dumps(payload), headers=headers,
    params=params)] *)
Definition requests_post (url : string) (value : list index_document)
  : M (World event) http_response :=
  external (Post url value headers params) (search_service_answer url value).

(** *** The upload loop *)

(** The body of the inner [for page in tqdm(bookmap)] loop. *)
Definition upload_page (bookname : string) (pg : page) : M (World event) unit :=
  let page_num := fst (fst pg) + 1 in
  let content := snd pg in
  try_except_Exception
    (let book_url := BASE_CONTAINER_URL ++ bookname in
     let id := text_to_base64 (bookname ++ str_of_int page_num) in
     let title := bookname ++ "_page_" ++ str_of_int page_num in
     chunkVector <-
       embed_query (if negb (content =? "")%string then content else "-------") ;;
     let upload_payload :=
       [ {| doc_id := id;
            doc_title := title;
            doc_chunk := content;
            doc_chunkVector := chunkVector;
            doc_name := bookname;
            doc_location := book_url;
            doc_page_num := page_num;
            doc_search_action := "upload" |} ] in
     r <- requests_post
            (AZURE_SEARCH_ENDPOINT ++ "/indexes/" ++ book_index_name
               ++ "/docs/index")
            upload_payload ;;
     if negb (status_code r =? 200)
     then print (str_of_int (status_code r)) ;; print (text r)
     else ret tt)
    (fun e => print ("Exception: " ++ exn_str e) ;; print content).

Fixpoint upload_pages (bookname : string) (bookmap : list page)
  : M (World event) unit :=
  match bookmap with
  | [] => ret tt
  | pg :: rest => upload_page bookname pg ;; upload_pages bookname rest
  end.

(** [for bookname, bookmap in book_pages_map.items(): ...] *)
Fixpoint upload_books (book_pages_map : list (string * list page))
  : M (World event) unit :=
  match book_pages_map with
  | [] => ret tt
  | (bookname, bookmap) :: rest =>
      print ("Uploading chunks from " ++ bookname) ;;
      upload_pages bookname bookmap ;;
      upload_books rest
  end.


(** *** Token counting and strategy selection *)

(** The variables the cell assigns. *)
Record Namespace : Type := mk_Namespace
  { tokens_limit : option Z;
    prompt_tokens : option Z;
    context_tokens : option Z;
    requested_tokens : option Z;
    chain_type : option string }.

Record Kernel : Type := mk_Kernel
  { variables : Namespace;
    output : list string }.

Definition assign (f : Namespace -> Namespace) : M Kernel unit :=
  modify (fun k => mk_Kernel (f (variables k)) (output k)).

Definition print_line (line : string) : M Kernel unit :=
  modify (fun k => mk_Kernel (variables k) (output k ++ [line])).

(** ["map_reduce" if requested_tokens > 0.9 * tokens_limit else "stuff"] *)
Definition select_chain_type (requested limit : Z) : outcome string :=
  match float_of_int limit with
  | Raises e => Raises e
  | Returns fl =>
      Returns (if int_gt_float requested (float_mul float_0_9 fl)
               then "map_reduce" else "stuff")
  end.

(** The cell "Calculate number of tokens of our docs", for the globals
    [MODEL], [COMPLETION_TOKENS] and [top_docs] of earlier cells. *)
Definition token_cell (model : string) (completion_tokens : Z)
  (top_docs : list Document) : M Kernel unit :=
  if Z.of_nat (List.length top_docs) >? 0 then
    let limit := model_tokens_limit model in
    assign (fun ns => mk_Namespace (Some limit) (prompt_tokens ns)
              (context_tokens ns) (requested_tokens ns) (chain_type ns)) ;;
    let prompt := num_tokens_from_string COMBINE_PROMPT_TEMPLATE in
    assign (fun ns => mk_Namespace (tokens_limit ns) (Some prompt)
              (context_tokens ns) (requested_tokens ns) (chain_type ns)) ;;
    let context := num_tokens_from_docs top_docs in
    assign (fun ns => mk_Namespace (tokens_limit ns) (prompt_tokens ns)
              (Some context) (requested_tokens ns) (chain_type ns)) ;;
    let requested := prompt + context + completion_tokens in
    assign (fun ns => mk_Namespace (tokens_limit ns) (prompt_tokens ns)
              (context_tokens ns) (Some requested) (chain_type ns)) ;;
    chain <- eval (select_chain_type requested limit) ;;
    assign (fun ns => mk_Namespace (tokens_limit ns) (prompt_tokens ns)
              (context_tokens ns) (requested_tokens ns) (Some chain)) ;;
    print_line ("System prompt token count: " ++ str_of_int prompt) ;;
    print_line ("Max Completion Token count: " ++ str_of_int completion_tokens) ;;
    print_line ("Combined docs (context) token count: " ++ str_of_int context) ;;
    print_line "--------" ;;
    print_line ("Requested token count: " ++ str_of_int requested) ;;
    print_line ("Token limit for " ++ model ++ " : " ++ str_of_int limit) ;;
    print_line ("Chain Type selected: " ++ chain)
  else
    print_line "NO RESULTS FROM AZURE SEARCH".

End Cells.

(** The run recorded in the notebook: ten chunks, 1669 prompt tokens,
    4111 context tokens, a limit of 32768 for [gpt-4-32k]. *)
Definition recorded_docs : list Document :=
  repeat (mk_Document "chunk" "location") 10.

Definition recorded_run : Externals :=
  {| text_to_base64 := fun s => s;
     model_tokens_limit := fun _ => 32768;
     num_tokens_from_string := fun _ => 1669;
     num_tokens_from_docs := fun _ => 4111;
     COMBINE_PROMPT_TEMPLATE := "";
     AZURE_SEARCH_ENDPOINT := "https://search.test";
     AZURE_SEARCH_KEY := "key";
     AZURE_SEARCH_API_VERSION := "2023-10-01-Preview";
     embedder_answer := fun input _ =>
       Returns (if (input =? "-------")%string then [float_0_9] else []);
     search_service_answer := fun _ _ _ => Returns (mk_http_response 200 "") |}.

Definition empty_namespace : Namespace :=
  mk_Namespace None None None None None.

(** Two parsed pages of [images.pdf], the first one without text. *)
Definition images_pdf : list (string * list page) :=
  [("images.pdf", [(0, 0, ""); (1, 4, "Priority 1 AOAI")])].

End ComplexDocs.

(** ** 06-TabularDataQA.ipynb *)
Module TabularDataQA.

Inductive event : Type :=
| AgentRun (input : string).

(** [common/prompts.py] and the pandas agent built by
    [create_pandas_dataframe_agent]. *)
Class Externals : Type :=
  { CSV_PROMPT_PREFIX : string;
    CSV_PROMPT_SUFFIX : string;
    agent_executor_answer : string -> list event -> outcome string }.

Definition QUESTION : string :=
  "How may patients were hospitalized during July 2020 in Texas, and nationwide as the total of all states? Use the hospitalizedIncrease column".

(** How an iteration of a [for] loop ends. *)
Inductive signal : Type := Break | Continue.

Section Cells.
Context `{Externals}.

(** [agent_executor.run(input)] *)
Definition agent_executor_run (input : string) : M (World event) string :=
  external (AgentRun input) (agent_executor_answer input).

(** One iteration:
    [try: response = agent_executor.run(...); break]
    [except: response = "Error too many failed retries"; continue] *)
Definition attempt : M (World event) (signal * string) :=
  try_except_all
    (response <- agent_executor_run
                   (CSV_PROMPT_PREFIX ++ QUESTION ++ CSV_PROMPT_SUFFIX) ;;
     ret (Break, response))
    (ret (Continue, "Error too many failed retries")).

(** [for i in range(n): attempt], threading the variable [response]. *)
Fixpoint retry (n : nat) (response : option string)
  : M (World event) (option string) :=
  match n with
  | O => ret response
  | S n' =>
      r <- attempt ;;
      match r with
      | (Break, response') => ret (Some response')
      | (Continue, response') => retry n' (Some response')
      end
  end.

(** The whole cell: [for i in range(5): ...] then [print(response)]. *)
Definition answer_cell : M (World event) string :=
  response <- retry 5 None ;;
  match response with
  | Some s => print s ;; ret s
  | None => raise (mk_exn "NameError" true "name 'response' is not defined")
  end.

End Cells.

(** Number of times the agent executor was run in a trace. *)
Definition invocations (t : list event) : nat := List.length t.

(** An agent that is throttled on every call. *)
Definition always_failing : Externals :=
  {| CSV_PROMPT_PREFIX := "";
     CSV_PROMPT_SUFFIX := "";
     agent_executor_answer := fun _ _ =>
       Raises (mk_exn "RateLimitError" true "Requests to the API are throttled") |}.

End TabularDataQA.

(** ** 09-API-Search.ipynb *)
Module APISearch.

Record http_response : Type := mk_http_response
  { status_code : Z;
    text : string }.

Inductive event : Type :=
| AgentRun (input : string)
| Sleep (seconds : Z)
| Synthesize (api_docs question : string)
| Summarize (api_docs question api_url api_response : string)
| HttpGet (url : string) (params headers : list (string * string)).

(** The collaborators of the notebook: the agent built by
    [initialize_agent], the completion model behind the chain, the HTTP
    transport, and the [json] module. *)
Class Externals : Type :=
  { agent_executor_answer : string -> list event -> outcome string;
    llm_request_answer : string -> string -> list event -> outcome string;
    llm_summary_answer :
      string -> string -> string -> string -> list event -> outcome string;
    http_answer :
      string -> list (string * string) -> list (string * string) ->
      list event -> outcome http_response;
    json : Type;
    json_loads : string -> outcome json;
    json_dumps : json -> string }.

Inductive signal : Type := Break | Continue.

(** *** URLs and the allow-list *)

(** The text of [s] up to its first ["/"]. *)
Fixpoint until_slash (s : string) : string :=
  match s with
  | EmptyString => EmptyString
  | String c rest =>
      if (c =? "/")%char then EmptyString else String c (until_slash rest)
  end.

(** Modelled from the spec: the host a request targets, compared
    together with its scheme: ["https://x.test/a/b"] gives
    ["https://x.test"].  URL parsing is library code that is not among the
    sources. *)
Fixpoint origin (url : string) : string :=
  match url with
  | EmptyString => EmptyString
  | String ":" (String "/" (String "/" rest)) => "://" ++ until_slash rest
  | String c rest => String c (origin rest)
  end.

(** Modelled from the spec: a request is allowed when its host is the
    host of an entry of the allow-list, as in the allow-list
    [["https://x.test/"]] against a request to [https://y.test/...].  The
    check is library code that is not among the sources. *)
Definition in_allowed_domain (url : string) (limit_to_domains : list string)
  : bool :=
  existsb (fun domain => (origin domain =? origin url)%string) limit_to_domains.

(** *** The spec-guided chain *)

Record APIChain : Type := mk_APIChain
  { chain_llm : string;
    chain_api_docs : string;
    chain_headers : list (string * string);
    chain_verbose : bool;
    chain_limit_to_domains : list string }.

(** [APIChain.from_llm_and_api_docs(llm=, api_docs=, headers=, verbose=,
    limit_to_domains=)] *)
Definition from_llm_and_api_docs (llm api_docs : string)
  (headers : list (string * string)) (verbose : bool)
  (limit_to_domains : list string) : APIChain :=
  mk_APIChain llm api_docs headers verbose limit_to_domains.

(** Modelled from the spec: the error DomainNotAllowed of the error
    taxonomy, raised by the library's chain, which is not among the
    sources. *)
Definition DomainNotAllowed (api_url : string) (limit_to_domains : list string)
  : exn :=
  mk_exn "DomainNotAllowed" true
    (api_url ++ " is not in the allowed domains: "
       ++ String.concat ", " limit_to_domains).

Section Cells.
Context `{Externals}.

(** [sleep(seconds)] *)
Definition sleep (seconds : Z) : M (World event) unit :=
  external (Sleep seconds) (fun _ => Returns tt).

(** [requests.get(url, params)], also with headers for the chain. *)
Definition requests_get (url : string) (params headers : list (string * string))
  : M (World event) http_response :=
  external (HttpGet url params headers) (http_answer url params headers).

(** Modelled from the spec: the chain executor [APIChain.run] is library
    code that is not among the sources.  Per the specification of the
    spec-guided tool variant, it synthesizes one concrete request from
    the API description and the query, rejects it with DomainNotAllowed
    before execution when an allow-list is configured and the host of
    the request is not in it, executes the request, summarizes the raw
    response against the original query and returns the summary text. *)
Definition APIChain_run (chain : APIChain) (question : string)
  : M (World event) string :=
  api_url <- external (Synthesize (chain_api_docs chain) question)
               (llm_request_answer (chain_api_docs chain) question) ;;
  match chain_limit_to_domains chain with
  | _ :: _ =>
      if in_allowed_domain api_url (chain_limit_to_domains chain)
      then ret tt
      else raise (DomainNotAllowed api_url (chain_limit_to_domains chain))
  | [] => ret tt
  end ;;
  api_response <- requests_get api_url [] (chain_headers chain) ;;
  external
    (Summarize (chain_api_docs chain) question api_url (text api_response))
    (llm_summary_answer (chain_api_docs chain) question api_url
       (text api_response)).

(** **** [class MyAPISearch(BaseTool)] *)
Record MyAPISearch : Type := mk_MyAPISearch
  { llm : string;
    api_spec : string;
    headers : list (string * string);
    limit_to_domains : list string;
    verbose : bool }.

(** [MyAPISearch._run] *)
Definition MyAPISearch_run (self : MyAPISearch) (query : string)
  : M (World event) value :=
  let chain := from_llm_and_api_docs (llm self) (api_spec self)
                 (headers self) (verbose self) (limit_to_domains self) in
  response <-
    try_except_Exception
      (sleep 2 ;;
       response <- APIChain_run chain query ;;
       ret (VStr response))
      (fun e => ret (VExc e)) ;;
  ret response.

(** **** [class MySimpleAPISearch(BaseTool)] *)
Record MySimpleAPISearch : Type := mk_MySimpleAPISearch
  { api_key : string }.

Definition countdown_endpoint : string :=
  "https://api.countdownapi.com/request".

(** The [params] dictionary of [MySimpleAPISearch._run]. *)
Definition search_params (self : MySimpleAPISearch) (query : string)
  : list (string * string) :=
  [ ("api_key", api_key self);
    ("type", "search");
    ("ebay_domain", "ebay.com");
    ("search_term", query) ].

(** [MySimpleAPISearch._run] *)
Definition MySimpleAPISearch_run (self : MySimpleAPISearch) (query : string)
  : M (World event) value :=
  let params := search_params self query in
  api_result <- requests_get countdown_endpoint params [] ;;
  response <-
    try_except_Exception
      (parsed <- eval (json_loads (text api_result)) ;;
       ret (VStr (json_dumps parsed)))
      (fun e => ret (VExc e)) ;;
  ret response.

(** **** The retry loop around the agent *)

(** [agent_executor.run(input)] *)
Definition agent_executor_run (input : string) : M (World event) string :=
  external (AgentRun input) (agent_executor_answer input).

(** One iteration:
    [try: response = agent_executor.run(QUESTION); break]
    [except Exception as e: response = str(e); continue] *)
Definition attempt (question : string) : M (World event) (signal * string) :=
  try_except_Exception
    (response <- agent_executor_run question ;;
     ret (Break, response))
    (fun e => ret (Continue, exn_str e)).

(** [for i in range(n): attempt], threading the variable [response]. *)
Fixpoint retry (n : nat) (question : string) (response : option string)
  : M (World event) (option string) :=
  match n with
  | O => ret response
  | S n' =>
      r <- attempt question ;;
      match r with
      | (Break, response') => ret (Some response')
      | (Continue, response') => retry n' question (Some response')
      end
  end.

(** The cell: [for i in range(2): ...], leaving [response]. *)
Definition answer_cell (question : string) : M (World event) (option string) :=
  retry 2 question None.

End Cells.

(** Number of runs of the agent executor in a trace. *)
Definition invocations (t : list event) : nat :=
  List.length (filter (fun ev => match ev with AgentRun _ => true | _ => false end) t).

Definition RateLimitError : exn :=
  mk_exn "RateLimitError" true "Requests to the API are throttled".
Definition ConnectionError : exn :=
  mk_exn "ConnectionError" true "Max retries exceeded with url: /request".

(** Every collaborator is down: the models are throttled and the
    transport cannot connect. *)
Definition outage : Externals :=
  {| agent_executor_answer := fun _ _ => Raises RateLimitError;
     llm_request_answer := fun _ _ _ => Raises RateLimitError;
     llm_summary_answer := fun _ _ _ _ _ => Raises RateLimitError;
     http_answer := fun _ _ _ _ => Raises ConnectionError;
     json := string;
     json_loads := fun s => Returns s;
     json_dumps := fun j => j |}.

(** The agent never produces an answer in the format its parser
    expects. *)
Definition unparsable : Externals :=
  {| agent_executor_answer := fun _ _ =>
       Raises (mk_exn "OutputParserException" true "Could not parse LLM output");
     llm_request_answer := fun _ _ _ => Raises RateLimitError;
     llm_summary_answer := fun _ _ _ _ _ => Raises RateLimitError;
     http_answer := fun _ _ _ _ => Raises ConnectionError;
     json := string;
     json_loads := fun s => Returns s;
     json_dumps := fun j => j |}.

(** Everything works; the completion model answers every question with
    a request to [y.test]. *)
Definition answers_with_y_test : Externals :=
  {| agent_executor_answer := fun _ _ => Returns "done";
     llm_request_answer := fun _ _ _ => Returns "https://y.test/v1/data";
     llm_summary_answer := fun _ _ _ response _ => Returns response;
     http_answer := fun _ _ _ _ => Returns (mk_http_response 200 "{}");
     json := string;
     json_loads := fun s => Returns s;
     json_dumps := fun j => j |}.

Definition JSONDecodeError : exn :=
  mk_exn "JSONDecodeError" true "Expecting value: line 1 column 1 (char 0)".

(** The service answers with an HTML error page, which is not JSON. *)
Definition html_error_page : Externals :=
  {| agent_executor_answer := fun _ _ => Returns "done";
     llm_request_answer := fun _ _ _ => Returns "https://y.test/v1/data";
     llm_summary_answer := fun _ _ _ response _ => Returns response;
     http_answer := fun _ _ _ _ =>
       Returns (mk_http_response 502 "<html>Bad Gateway</html>");
     json := string;
     json_loads := fun _ => Raises JSONDecodeError;
     json_dumps := fun j => j |}.

(** The tool as the specification's example configures it. *)
Definition x_test_tool : MyAPISearch :=
  mk_MyAPISearch "gpt-35-turbo-16k" "GET /v1/data" [] ["https://x.test/"] false.

(** The HTTP requests of a trace. *)
Definition http_requests (t : list event) : list event :=
  filter (fun ev => match ev with HttpGet _ _ _ => true | _ => false end) t.

End APISearch.

(** ** The spec reducer

    [reduce_openapi_spec] is defined in [common/utils.py], which is not
    among the sources; the notebook only calls it.  The data model and the
    operation below follow sections 3 and 4.1 of the specification. *)
Module SpecReducer.

(** Modelled from the spec: where a parameter is passed (path, query,
    header or body). *)
Inductive location : Type := in_path | in_query | in_header | in_body.

(** Modelled from the spec: free-form nested content, as in nested object
    schemas and response shapes. *)
#[local] Unset Elimination Schemes.
Inductive shape : Type :=
| Primitive (type : string)
| Array (items : shape)
| Object (fields : list (string * shape)).
#[local] Set Elimination Schemes.

(** Modelled from the spec: a parameter has a name, a location, a
    required flag and a primitive type, and in a full description possibly
    a nested object schema and an example. *)
Record parameter : Type := mk_parameter
  { param_name : string;
    param_location : location;
    param_required : bool;
    param_type : string;
    param_schema : option shape;
    param_example : option string }.

(** Modelled from the spec: the attributes of an operation are the HTTP
    method, the path template, the free-text summary, the ordered list of
    parameters and a response shape; summary, description, parameters and
    response are optional in a document. *)
Record operation : Type := mk_operation
  { op_method : string;
    op_path : string;
    op_summary : option string;
    op_description : option string;
    op_parameters : option (list parameter);
    op_response : option shape }.

(** Modelled from the spec: an API description as it is handed to the
    reducer: any document, a mapping or not, with or without the top-level
    operation collection. *)
Inductive description : Type :=
| NotAMapping
| Mapping (operations : option (list operation)).

(** Modelled from the spec: the reducer gives a reduced description, or
    fails with MalformedSpec, reported as a textual explanation. *)
Inductive result : Type :=
| Reduced (d : description)
| MalformedSpec (explanation : string).

(** Modelled from the spec: parameter metadata only (name, location,
    required, primitive type); nested object schemas and examples are
    stripped.  [reduce_openapi_spec] of [common/utils.py] is not among the
    sources. *)
Definition reduce_parameter (p : parameter) : parameter :=
  {| param_name := param_name p;
     param_location := param_location p;
     param_required := param_required p;
     param_type := param_type p;
     param_schema := None;
     param_example := None |}.

(** Modelled from the spec: for each operation the reducer extracts
    method, path and the human-readable summary, falling back to the
    description text if the summary is absent; absent optional fields (no
    parameters, no summary) map to empty defaults; response bodies are
    stripped.  [reduce_openapi_spec] of [common/utils.py] is not among the
    sources. *)
Definition reduce_operation (op : operation) : operation :=
  {| op_method := op_method op;
     op_path := op_path op;
     op_summary :=
       Some match op_summary op with
            | Some summary => summary
            | None => match op_description op with
                      | Some description => description
                      | None => ""
                      end
            end;
     op_description := None;
     op_parameters :=
       Some (map reduce_parameter
               match op_parameters op with
               | Some parameters => parameters
               | None => []
               end);
     op_response := None |}.

(** Modelled from the spec: [reduce] accepts a full API description and
    returns a reduced description; it fails with MalformedSpec, reported
    as a textual explanation, when the input is not a mapping describing
    at least one operation, e.g. when the top-level key for operations is
    missing entirely.  [reduce_openapi_spec] of [common/utils.py] is not
    among the sources. *)
Definition reduce (d : description) : result :=
  match d with
  | NotAMapping => MalformedSpec "the API description is not a mapping"
  | Mapping None =>
      MalformedSpec "the API description has no collection of operations"
  | Mapping (Some []) =>
      MalformedSpec "the API description describes no operation"
  | Mapping (Some operations) =>
      Reduced (Mapping (Some (map reduce_operation operations)))
  end.

(** The key of an operation within one description. *)
Definition op_key (op : operation) : string * string :=
  (op_method op, op_path op).

(** Modelled from the spec: a valid API description is a mapping that
    describes at least one operation, every operation having a unique
    (method, path) pair within the description. *)
Definition valid (d : description) : Prop :=
  match d with
  | Mapping (Some (op :: ops)) => NoDup (map op_key (op :: ops))
  | _ => False
  end.

(** The endpoint of the end-to-end scenario, with the verbose detail a
    full description carries. *)
Definition countries_operation : operation :=
  {| op_method := "GET";
     op_path := "/v3/covid-19/countries/{country}";
     op_summary := None;
     op_description := Some "Get COVID-19 totals for a specific country";
     op_parameters :=
       Some [ {| param_name := "country";
                 param_location := in_path;
                 param_required := true;
                 param_type := "string";
                 param_schema := Some (Primitive "string");
                 param_example := Some "Argentina,USA" |} ];
     op_response :=
       Some (Object [("tests", Primitive "number");
                     ("countryInfo", Object [("iso2", Primitive "string")])]) |}.

Definition disease_sh : description := Mapping (Some [countries_operation]).

End SpecReducer.

(** ** 04-Complex-Docs.ipynb: from the search results to the chain *)
Module ComplexDocsQuery.
Import ComplexDocs.

(** One value of [ordered_results]: the keys the notebook reads. *)
Record search_result : Type := mk_search_result
  { result_chunk : string;
    result_location : option string }.

(** [for key, value in ordered_results.items(): ... top_docs.append(...)],
    from the list [top_docs] built so far. *)
Fixpoint append_top_docs (BLOB_SAS_TOKEN : string)
  (items : list (string * search_result)) (top_docs : list Document)
  : list Document :=
  match items with
  | [] => top_docs
  | (key, value) :: rest =>
      let location :=
        match result_location value with
        | Some location => location
        | None => ""
        end in
      append_top_docs BLOB_SAS_TOKEN rest
        (top_docs
           ++ [mk_Document (result_chunk value) (location ++ BLOB_SAS_TOKEN)])
  end.

(** The cell that builds [top_docs] and prints their number: the new
    value of [top_docs] and the printed line. *)
Definition top_docs_cell (BLOB_SAS_TOKEN : string)
  (ordered_results : list (string * search_result))
  : list Document * string :=
  let top_docs := append_top_docs BLOB_SAS_TOKEN ordered_results [] in
  (top_docs,
   "Number of chunks: " ++ str_of_int (Z.of_nat (List.length top_docs))).

(** What [load_qa_with_sources_chain(llm, chain_type=..., ...)] was called
    with; [return_intermediate_steps] defaults to [False]. *)
Record qa_chain (prompt : Type) : Type := mk_qa_chain
  { qa_chain_type : string;
    qa_prompt : option prompt;
    qa_question_prompt : option prompt;
    qa_combine_prompt : option prompt;
    qa_return_intermediate_steps : bool }.

Section Cells.
Context `{Externals}.
Variable prompt : Type.
Variables COMBINE_PROMPT COMBINE_QUESTION_PROMPT : prompt.

(** The two cells in a row: build [top_docs], then count the tokens. *)
Definition docs_and_tokens_cells (BLOB_SAS_TOKEN model : string)
  (completion_tokens : Z) (ordered_results : list (string * search_result))
  : M Kernel unit :=
  let '(top_docs, line) := top_docs_cell BLOB_SAS_TOKEN ordered_results in
  print_line line ;;
  token_cell model completion_tokens top_docs.

(** The cell [if chain_type == "stuff": chain = ... elif chain_type ==
    "map_reduce": chain = ...], from the variables [chain_type] and [chain]
    as they are; it gives the new value of [chain]. *)
Definition load_chain_cell (chain_type : option string)
  (chain : option (qa_chain prompt)) : outcome (option (qa_chain prompt)) :=
  match chain_type with
  | None =>
      Raises (mk_exn "NameError" true "name 'chain_type' is not defined")
  | Some chain_type =>
      if (chain_type =? "stuff")%string then
        Returns (Some (mk_qa_chain chain_type (Some COMBINE_PROMPT) None None
                         false))
      else if (chain_type =? "map_reduce")%string then
        Returns (Some (mk_qa_chain chain_type None
                         (Some COMBINE_QUESTION_PROMPT) (Some COMBINE_PROMPT)
                         true))
      else Returns chain
  end.

End Cells.

(** The texts sent to the embedding deployment, in the order of the calls. *)
Definition embed_inputs (t : list event) : list string :=
  flat_map (fun ev => match ev with
                      | EmbedQuery input => [input]
                      | Post _ _ _ _ => []
                      end) t.

(** The documents sent to the search service, in the order of the calls. *)
Definition posted (t : list event) : list index_document :=
  flat_map (fun ev => match ev with
                      | EmbedQuery _ => []
                      | Post _ value _ _ => value
                      end) t.

(** The pages of all books with the name of their book, in the order in
    which the two loops visit them. *)
Definition all_pages (book_pages_map : list (string * list page))
  : list (string * page) :=
  flat_map (fun book => map (pair (fst book)) (snd book)) book_pages_map.

Section Payload.
Context `{Externals}.

(** The one entry of ["value"] in the [upload_payload] of a page, around
    the embedding [chunkVector] it got. *)
Definition page_document (bookname : string) (pg : page)
  (chunkVector : list float) : index_document :=
  let page_num := fst (fst pg) + 1 in
  let content := snd pg in
  let book_url := BASE_CONTAINER_URL ++ bookname in
  {| doc_id := text_to_base64 (bookname ++ str_of_int page_num);
     doc_title := bookname ++ "_page_" ++ str_of_int page_num;
     doc_chunk := content;
     doc_chunkVector := chunkVector;
     doc_name := bookname;
     doc_location := book_url;
     doc_page_num := page_num;
     doc_search_action := "upload" |}.

End Payload.

(** The embedding deployment rejects one page and the search service
    refuses another. *)
Definition flaky_run : Externals :=
  {| text_to_base64 := fun s => s;
     model_tokens_limit := fun _ => 32768;
     num_tokens_from_string := fun _ => 1669;
     num_tokens_from_docs := fun _ => 4111;
     COMBINE_PROMPT_TEMPLATE := "";
     AZURE_SEARCH_ENDPOINT := "https://search.test";
     AZURE_SEARCH_KEY := "key";
     AZURE_SEARCH_API_VERSION := "2023-10-01-Preview";
     embedder_answer := fun input _ =>
       if (input =? "too long")%string
       then Raises (mk_exn "InvalidRequestError" true "maximum context length")
       else Returns [];
     search_service_answer := fun _ value _ =>
       match value with
       | doc :: _ =>
           if (doc_chunk doc =? "")%string
           then Returns (mk_http_response 400 "Bad Request")
           else Returns (mk_http_response 200 "")
       | [] => Returns (mk_http_response 200 "")
       end |}.

(** Three pages: one without text, one the embedder refuses, one fine. *)
Definition three_pages : list (string * list page) :=
  [("azure-search.pdf", [(0, 0, ""); (1, 7, "too long"); (2, 9, "Azure AI Search")])].

(** Two results of a search, the second without a location. *)
Definition two_results : list (string * search_result) :=
  [ ("id1", mk_search_result "Azure AI Search is"
              (Some "https://blob.test/books/azure-search.pdf"));
    ("id2", mk_search_result "a dedicated search engine" None) ].

End ComplexDocsQuery.

(** ** 06-TabularDataQA.ipynb: a run that recovers *)
Module TabularDataQARuns.
Import TabularDataQA.



End TabularDataQARuns.

(** ** 06-TabularDataQA.ipynb: the evaluation cells *)
Module TabularEvaluation.

(** The columns of the dataframe the evaluation reads, as [read_csv] loads
    them: [date] and [state] are strings, [hospitalizedIncrease] is an
    [int64]. *)
Record row : Type := mk_row
  { date : string;
    state : string;
    hospitalizedIncrease : Z }.

(** A 64-bit signed integer with its wrap-around. *)
Definition wrap64 (n : Z) : Z := (n + 2 ^ 63) mod 2 ^ 64 - 2 ^ 63.

(** [column.sum()] of an [int64] column. *)
Definition sum (column : list Z) : Z :=
  fold_left (fun acc n => wrap64 (acc + n)) column 0.

(** [(df['date'] >= '2020-07-01') & (df['date'] <= '2020-07-31')] for one
    row: strings are compared character by character. *)
Definition in_july_2020 (r : row) : bool :=
  ("2020-07-01" <=? date r)%string && (date r <=? "2020-07-31")%string.

(** [july_2020 = df[...]] *)
Definition july_2020 (df : list row) : list row := filter in_july_2020 df.

(** [july_2020[july_2020['state'] == 'TX']['hospitalizedIncrease'].sum()] *)
Definition texas_hospitalized_july_2020 (df : list row) : Z :=
  sum (map hospitalizedIncrease
         (filter (fun r => (state r =? "TX")%string) (july_2020 df))).

(** [july_2020['hospitalizedIncrease'].sum()] *)
Definition nationwide_hospitalized_july_2020 (df : list row) : Z :=
  sum (map hospitalizedIncrease (july_2020 df)).

(** [print("TX:", texas_hospitalized_july_2020, "Nationwide:",
    nationwide_hospitalized_july_2020)] *)
Definition evaluation_line (df : list row) : string :=
  "TX: " ++ str_of_int (texas_hospitalized_july_2020 df)
    ++ " Nationwide: " ++ str_of_int (nationwide_hospitalized_july_2020 df).

(** The character of a decimal digit. *)
Definition digit (n : Z) : ascii := ascii_of_N (Z.to_N (48 + n)).

Definition two_digits (n : Z) : string :=
  String (digit (n / 10)) (String (digit (n mod 10)) EmptyString).

(** A date as the file writes it: [YYYY-MM-DD]. *)
Definition iso_date (year month day : Z) : string :=
  two_digits (year / 100) ++ two_digits (year mod 100)
    ++ "-" ++ two_digits month ++ "-" ++ two_digits day.

(** A few rows in the shape of the file. *)
Definition sample_rows : list row :=
  [ mk_row "2020-08-01" "TX" 120;
    mk_row "2020-07-31" "TX" 0;
    mk_row "2020-07-31" "AZ" 75;
    mk_row "2020-07-01" "NY" 41;
    mk_row "2020-06-30" "NY" 58 ].

End TabularEvaluation.

(** ** 09-API-Search.ipynb: displaying an answer *)
Module APISearchDisplay.
Import APISearch.

(** [text.replace("$", "USD ")] *)
Fixpoint replace_dollar (text : string) : string :=
  match text with
  | EmptyString => EmptyString
  | String c rest =>
      if (c =? "$")%char then "USD " ++ replace_dollar rest
      else String c (replace_dollar rest)
  end.

(** [printmd(string)]: what [display(Markdown(...))] shows is a line of
    the output. *)
Definition printmd {E : Type} (text : string) : M (World E) unit :=
  print (replace_dollar text).

(** Number of ["$"] in a string. *)
Fixpoint count_dollar (s : string) : nat :=
  match s with
  | EmptyString => O
  | String c rest => (if (c =? "$")%char then 1 else 0) + count_dollar rest
  end.

Section Cells.
Context `{Externals}.


End Cells.


End APISearchDisplay.

(* ================================================================== *)
(** * Part II.  Properties                                             *)
(* ================================================================== *)

Unset Implicit Arguments.

(** ** The monad *)

Lemma bind_Returns {S A B} (c : M S A) (k : A -> M S B) w a w' :
  c w = (Returns a, w') -> bind c k w = k a w'.
Proof. intros Hc. unfold bind. now rewrite Hc. Qed.

Lemma bind_Raises {S A B} (c : M S A) (k : A -> M S B) w e w' :
  c w = (Raises e, w') -> bind c k w = (Raises e, w').
Proof. intros Hc. unfold bind. now rewrite Hc. Qed.

(** ** Comparing an [int] with a [float] *)

Lemma ltb_mul_pow_div (a n : Z) (p : positive) :
  (a <? n * Z.pow_pos 2 p) = (a / Z.pow_pos 2 p <? n).
Proof.
  assert (Hpos : 0 < Z.pow_pos 2 p) by (rewrite Z.pow_pos_fold; lia).
  destruct (Z.ltb_spec (a / Z.pow_pos 2 p) n) as [Hlt | Hge].
  - apply Z.ltb_lt.
    pose proof (Z.mul_succ_div_gt a (Z.pow_pos 2 p) Hpos). nia.
  - apply Z.ltb_ge.
    pose proof (Z.mul_div_le a (Z.pow_pos 2 p) Hpos). nia.
Qed.

Lemma int_gt_float_floor (n : Z) (f : float) (k : Z) :
  float_floor f = Some k -> int_gt_float n f = (k <? n).
Proof.
  destruct f as [s | s | | s m e]; simpl; try discriminate.
  - now intros [= <-].
  - intros [= <-]. destruct e; try reflexivity. apply ltb_mul_pow_div.
Qed.

Lemma ltb_tenths (limit requested : Z) :
  (9 * limit / 10 <? requested) = (9 * limit <? 10 * requested).
Proof.
  destruct (Z.ltb_spec (9 * limit) (10 * requested)) as [Hlt | Hge].
  - apply Z.ltb_lt. apply Z.div_lt_upper_bound; lia.
  - apply Z.ltb_ge. apply Z.div_le_lower_bound; lia.
Qed.

(** ** Rounding in binary64 *)

Lemma digits2_pos_bounds (p : positive) :
  2 ^ (Zpos (digits2_pos p) - 1) <= Zpos p < 2 ^ Zpos (digits2_pos p).
Proof.
  induction p as [p IH | p IH |]; cbn [digits2_pos].
  - rewrite Pos2Z.inj_succ, (Pos2Z.inj_xI p).
    replace (Z.succ (Zpos (digits2_pos p)) - 1)
      with (Z.succ (Zpos (digits2_pos p) - 1)) by lia.
    rewrite !Z.pow_succ_r by lia.
    revert IH. generalize (2 ^ (Zpos (digits2_pos p) - 1)).
    generalize (2 ^ Zpos (digits2_pos p)). intros a b [Hlow Hhigh]. lia.
  - rewrite Pos2Z.inj_succ, (Pos2Z.inj_xO p).
    replace (Z.succ (Zpos (digits2_pos p)) - 1)
      with (Z.succ (Zpos (digits2_pos p) - 1)) by lia.
    rewrite !Z.pow_succ_r by lia.
    revert IH. generalize (2 ^ (Zpos (digits2_pos p) - 1)).
    generalize (2 ^ Zpos (digits2_pos p)). intros a b [Hlow Hhigh]. lia.
  - simpl. lia.
Qed.

Lemma digits2_pos_unique (p : positive) (d : Z) :
  2 ^ (d - 1) <= Zpos p < 2 ^ d -> Zpos (digits2_pos p) = d.
Proof.
  intros [Hlow Hhigh]. pose proof (digits2_pos_bounds p) as [Hlow' Hhigh'].
  assert (0 < d).
  { destruct (Z_lt_le_dec 0 d) as [| Hneg]; [assumption |].
    assert (2 ^ d <= 2 ^ 0) by (apply Z.pow_le_mono_r; lia).
    change (2 ^ 0) with 1 in *. lia. }
  destruct (Z.lt_trichotomy (Zpos (digits2_pos p)) d) as [Hlt | [Heq | Hgt]].
  - assert (2 ^ Zpos (digits2_pos p) <= 2 ^ (d - 1))
      by (apply Z.pow_le_mono_r; lia). lia.
  - exact Heq.
  - assert (2 ^ d <= 2 ^ (Zpos (digits2_pos p) - 1))
      by (apply Z.pow_le_mono_r; lia). lia.
Qed.

Lemma iter_pos_nat {A : Type} (f : A -> A) (p : positive) :
  forall x, iter_pos f p x = Nat.iter (Pos.to_nat p) f x.
Proof.
  induction p as [p IH | p IH |]; intros x; cbn [iter_pos].
  - rewrite !IH, Pos2Nat.inj_xI, <- Nat.iter_succ_r, <- Nat.iter_add.
    f_equal. lia.
  - rewrite !IH, Pos2Nat.inj_xO, <- Nat.iter_add. f_equal. lia.
  - reflexivity.
Qed.

Lemma shr_1_spec (mrs : shr_record) :
  0 <= shr_m mrs ->
  shr_m (shr_1 mrs) = shr_m mrs / 2 /\ shr_r (shr_1 mrs) = Z.odd (shr_m mrs).
Proof.
  destruct mrs as [m r s]. cbn [shr_m]. intros Hm.
  destruct m as [| [p | p |] | p]; cbn [shr_1 shr_m shr_r]; try lia.
  all: split; try reflexivity.
  - apply Z.div_unique with (r := 1); lia.
  - apply Z.div_unique with (r := 0); lia.
Qed.

Lemma shr_iter_spec (m : Z) (j : nat) :
  0 <= m ->
  let mrs := Nat.iter j shr_1 (Build_shr_record m false false) in
  shr_m mrs = m / 2 ^ Z.of_nat j
  /\ (shr_r mrs = true -> (0 < j)%nat /\ Z.odd (m / 2 ^ (Z.of_nat j - 1)) = true).
Proof.
  intros Hm. induction j as [| j [IHm IHr]]; cbv zeta.
  - cbn [Nat.iter shr_m shr_r]. split; [now rewrite Z.div_1_r | discriminate].
  - rewrite Nat.iter_succ.
    assert (Hnonneg : 0 <= shr_m (Nat.iter j shr_1 (Build_shr_record m false false))).
    { rewrite IHm. apply Z.div_pos; lia. }
    destruct (shr_1_spec _ Hnonneg) as [Hm' Hr'].
    rewrite Hm', Hr', IHm. split.
    + rewrite Nat2Z.inj_succ, Z.pow_succ_r, Z.div_div by lia.
      f_equal. lia.
    + intros Hodd. split; [lia |].
      now replace (Z.of_nat (S j) - 1) with (Z.of_nat j) by lia.
Qed.

Lemma odd_div_mod (m n : Z) :
  0 <= m -> 1 <= n ->
  Z.odd (m / 2 ^ (n - 1)) = true ->
  2 ^ (n - 1) <= m mod 2 ^ n.
Proof.
  intros Hm Hn Hodd.
  assert (Hpow : 2 ^ n = 2 * 2 ^ (n - 1)).
  { rewrite <- Z.pow_succ_r by lia. f_equal. lia. }
  assert (Hhalf : 0 < 2 ^ (n - 1)) by (apply Z.pow_pos_nonneg; lia).
  pose proof (Z.div_mod m (2 ^ (n - 1)) ltac:(lia)) as Hdiv.
  pose proof (Z.mod_pos_bound m (2 ^ (n - 1)) Hhalf) as Hrem.
  rewrite Z.odd_spec in Hodd. destruct Hodd as [c Hc].
  rewrite Hpow.
  rewrite <- (Z.mod_unique m (2 * 2 ^ (n - 1)) c
                (2 ^ (n - 1) + m mod 2 ^ (n - 1))); [lia | left; lia | nia].
Qed.

Lemma shr_fexp_exact (m : positive) (e : Z) :
  let n := Zpos (digits2_pos m) - 53 in
  0 <= n -> -1074 <= e + n ->
  shr_fexp prec emax (Zpos m) e loc_Exact
  = (Nat.iter (Z.to_nat n) shr_1 (Build_shr_record (Zpos m) false false), e + n).
Proof.
  intros n Hn He.
  unfold shr_fexp, shr, fexp, emin, prec, emax.
  cbn [Zdigits2 shr_record_of_loc].
  replace (Z.max (Zpos (digits2_pos m) + e - 53) (3 - 1024 - 53) - e) with n
    by (subst n; lia).
  destruct n as [| pn | pn]; [| | lia].
  - now rewrite Z.add_0_r.
  - now rewrite iter_pos_nat.
Qed.

Lemma round_nearest_even_bounds (mrs : shr_record) :
  let R := round_nearest_even (shr_m mrs) (loc_of_shr_record mrs) in
  R = shr_m mrs \/ (R = shr_m mrs + 1 /\ shr_r mrs = true).
Proof.
  destruct mrs as [m [|] [|]]; cbn; auto.
  destruct (Z.even m); auto.
Qed.

Lemma binary_round_aux_exact (mx : positive) (ex : Z) :
  let n := Zpos (digits2_pos mx) - 53 in
  0 <= n -> -1074 <= ex + n -> ex + n < 971 ->
  exists m e,
    binary_round_aux prec emax false (Zpos mx) ex loc_Exact
    = S754_finite false m e
    /\ ex + n <= e <= ex + n + 1
    /\ Zpos mx - Zpos mx mod 2 ^ n <= Zpos m * 2 ^ (e - ex)
    /\ 2 * (Zpos m * 2 ^ (e - ex)) <= 2 * Zpos mx + 2 ^ n.
Proof.
  intros n Hn Hlow Hhigh.
  pose proof (digits2_pos_bounds mx) as [Hmx_low Hmx_high].
  assert (Hpn : 0 < 2 ^ n) by (apply Z.pow_pos_nonneg; lia).
  replace (Zpos (digits2_pos mx) - 1) with (52 + n) in Hmx_low by (subst n; lia).
  replace (Zpos (digits2_pos mx)) with (53 + n) in Hmx_high by (subst n; lia).
  rewrite Z.pow_add_r in Hmx_low, Hmx_high by lia.
  unfold binary_round_aux. rewrite (shr_fexp_exact mx ex Hn Hlow). fold n.
  destruct (shr_iter_spec (Zpos mx) (Z.to_nat n) ltac:(lia)) as [Hq Hr].
  rewrite Z2Nat.id in Hq, Hr by lia.
  set (mrs := Nat.iter (Z.to_nat n) shr_1 (Build_shr_record (Zpos mx) false false))
    in *.
  set (q := shr_m mrs) in *.
  assert (Hq_low : 2 ^ 52 <= q).
  { rewrite Hq. apply Z.div_le_lower_bound; lia. }
  assert (Hq_high : q < 2 ^ 53).
  { rewrite Hq. apply Z.div_lt_upper_bound; lia. }
  pose proof (Z.div_mod (Zpos mx) (2 ^ n) ltac:(lia)) as Hdiv. rewrite <- Hq in Hdiv.
  pose proof (Z.mod_pos_bound (Zpos mx) (2 ^ n) Hpn) as Hrem.
  set (R := round_nearest_even q (loc_of_shr_record mrs)).
  assert (HR : R = q \/ (R = q + 1 /\ 2 * 2 ^ n <= 2 * (Zpos mx mod 2 ^ n) + 2 ^ n)).
  { destruct (round_nearest_even_bounds mrs) as [HRq | [HRq Hflag]];
      [now left | right]. split; [exact HRq |].
    destruct (Hr Hflag) as [Hpos Hodd].
    pose proof (odd_div_mod (Zpos mx) n ltac:(lia) ltac:(lia) Hodd) as Hmod.
    replace (2 ^ n) with (2 * 2 ^ (n - 1)) at 1 3.
    - lia.
    - rewrite <- Z.pow_succ_r by lia. f_equal. lia. }
  assert (Hvalue :
            exists m e,
              (let '(mrs'', e'') :=
                 shr_fexp prec emax R (ex + n) loc_Exact in
               match shr_m mrs'' with
               | 0 => S754_zero false
               | Zpos m =>
                   if e'' <=? emax - prec
                   then S754_finite false m e'' else S754_infinity false
               | Zneg _ => S754_nan
               end) = S754_finite false m e
              /\ ex + n <= e <= ex + n + 1
              /\ Zpos m * 2 ^ (e - ex) = R * 2 ^ n).
  { destruct (Z_lt_le_dec R (2 ^ 53)) as [Hsmall | Hbig].
    - destruct R as [| r | r] eqn:HeqR; try lia.
      assert (Hdigits : Zpos (digits2_pos r) = 53).
      { apply digits2_pos_unique. change (53 - 1) with 52. lia. }
      rewrite (shr_fexp_exact r (ex + n)) by (rewrite Hdigits; lia).
      rewrite Hdigits. cbn [Z.sub Z.to_nat Z.pos_sub Nat.iter nat_rect shr_m].
      change (53 - 53) with 0. cbn [Z.to_nat Nat.iter nat_rect shr_m].
      rewrite Z.add_0_r.
      replace (ex + n <=? emax - prec) with true
        by (symmetry; apply Z.leb_le; unfold emax, prec; lia).
      exists r, (ex + n). repeat split; try lia.
      now replace (ex + n - ex) with n by lia.
    - assert (HeqR : R = 2 ^ 53) by lia. rewrite HeqR.
      change (2 ^ 53) with (Zpos 9007199254740992).
      rewrite (shr_fexp_exact 9007199254740992 (ex + n)) by (simpl; lia).
      change (Zpos (digits2_pos 9007199254740992) - 53) with 1.
      change (Nat.iter (Z.to_nat 1) shr_1
                (Build_shr_record (Zpos 9007199254740992) false false))
        with (Build_shr_record (Zpos 4503599627370496) false false).
      cbn [shr_m].
      replace (ex + n + 1 <=? emax - prec) with true
        by (symmetry; apply Z.leb_le; unfold emax, prec; lia).
      exists 4503599627370496%positive, (ex + n + 1).
      split; [reflexivity |]. split; [lia |].
      replace (ex + n + 1 - ex) with (Z.succ n) by lia.
      rewrite Z.pow_succ_r by lia. lia. }
  destruct Hvalue as [m [e [Hresult [He Hval]]]].
  exists m, e. split; [exact Hresult |]. split; [exact He |].
  rewrite Hval. destruct HR as [-> | [-> Hround]]; nia.
Qed.

Lemma binary_round_aux_normal (mx : positive) (ex : Z) :
  Zpos (digits2_pos mx) = 53 -> -1074 <= ex <= 971 ->
  binary_round_aux prec emax false (Zpos mx) ex loc_Exact
  = S754_finite false mx ex.
Proof.
  intros Hdigits Hex. unfold binary_round_aux.
  rewrite (shr_fexp_exact mx ex) by (rewrite Hdigits; lia).
  rewrite Hdigits. change (53 - 53) with 0.
  cbn [Z.to_nat Nat.iter nat_rect shr_m loc_of_shr_record round_nearest_even].
  rewrite Z.add_0_r.
  rewrite (shr_fexp_exact mx ex) by (rewrite Hdigits; lia).
  rewrite Hdigits. change (53 - 53) with 0.
  cbn [Z.to_nat Nat.iter nat_rect shr_m]. rewrite Z.add_0_r.
  replace (ex <=? emax - prec) with true; [reflexivity |].
  symmetry. apply Z.leb_le. unfold emax, prec. lia.
Qed.

Lemma pos_iter_xO (m k : positive) :
  Zpos (Pos.iter xO m k) = Zpos m * 2 ^ Zpos k.
Proof.
  induction k as [| k IH] using Pos.peano_ind.
  - cbn [Pos.iter]. rewrite (Pos2Z.inj_xO m). change (2 ^ 1) with 2. lia.
  - rewrite Pos.iter_succ, (Pos2Z.inj_xO (Pos.iter xO m k)), IH, Pos2Z.inj_succ.
    rewrite Z.pow_succ_r by lia. lia.
Qed.

(** [float(B)] is exact for a positive [int] below [2^53]: a 53-bit
    mantissa and the matching exponent. *)
Lemma float_of_int_exact (B : Z) :
  0 < B < 2 ^ 53 ->
  exists m e,
    float_of_int B = Returns (S754_finite false m e)
    /\ Zpos (digits2_pos m) = 53
    /\ -52 <= e <= 0
    /\ Zpos m = B * 2 ^ (- e).
Proof.
  intros [Hpos Hsmall]. destruct B as [| b | b]; try lia.
  pose proof (digits2_pos_bounds b) as [Hlow Hhigh].
  set (d := Zpos (digits2_pos b)) in *.
  assert (Hd : 1 <= d <= 53).
  { split; [subst d; lia |].
    destruct (Z_lt_le_dec 53 d) as [Hbig |]; [| assumption].
    assert (2 ^ 53 <= 2 ^ (d - 1)) by (apply Z.pow_le_mono_r; lia). lia. }
  assert (Hfexp : fexp prec emax (d + 0) = d - 53)
    by (unfold fexp, emin, prec, emax; lia).
  unfold float_of_int, binary_normalize, binary_round, shl_align.
  fold d. rewrite Hfexp, Z.sub_0_r.
  destruct (d - 53) as [| k | k] eqn:Hshift; try lia.
  - rewrite binary_round_aux_normal by (fold d; lia).
    exists b, 0. repeat split; try lia.
  - assert (Hk : Zpos k = 53 - d) by lia.
    assert (Hmz : Zpos (Pos.iter xO b k) = Zpos b * 2 ^ (53 - d))
      by (rewrite pos_iter_xO; now rewrite Hk).
    assert (Hpow : 0 < 2 ^ (53 - d)) by (apply Z.pow_pos_nonneg; lia).
    assert (Hdigits : Zpos (digits2_pos (Pos.iter xO b k)) = 53).
    { apply digits2_pos_unique. rewrite Hmz.
      assert (H52 : 2 ^ (53 - 1) = 2 ^ (d - 1) * 2 ^ (53 - d))
        by (rewrite <- Z.pow_add_r by lia; f_equal; lia).
      assert (H53 : 2 ^ 53 = 2 ^ d * 2 ^ (53 - d))
        by (rewrite <- Z.pow_add_r by lia; f_equal; lia).
      rewrite H52, H53.
      split; [apply Z.mul_le_mono_nonneg_r | apply Z.mul_lt_mono_pos_r]; lia. }
    rewrite binary_round_aux_normal by (try exact Hdigits; lia).
    exists (Pos.iter xO b k), (Zneg k). repeat split; try lia; try exact Hdigits.
    rewrite Hmz. f_equal. f_equal. lia.
Qed.

Lemma floor_of_rounded_product (B E N c P V G T : Z) :
  0 < B -> 12 * B < 2 ^ 53 -> 0 < E -> 0 < N -> 0 < G -> 0 < T ->
  P = 8106479329266893 * (B * E) ->
  G * T = 2 ^ 53 * E ->
  2 ^ 53 * E = N * c ->
  N * 2 ^ 52 <= P ->
  P - P mod N <= V * T ->
  2 * (V * T) <= 2 * P + N ->
  V / G = 9 * B / 10.
Proof.
  change (2 ^ 53) with 9007199254740992. change (2 ^ 52) with 4503599627370496.
  intros HB Hsmall HE HN HG HT HP HGT Hc Hdigits Hlow Hhigh.
  set (k := 9 * B / 10).
  assert (Hk_low : 10 * k <= 9 * B) by (apply Z.mul_div_le; lia).
  assert (Hk_high : 9 * B < 10 * k + 10).
  { pose proof (Z.mul_succ_div_gt (9 * B) 10 ltac:(lia)) as Hgt.
    fold k in Hgt. lia. }
  (* everything is linear in [X = B * E] and [Y = k * E] *)
  assert (HX : 0 < B * E) by (apply Z.mul_pos_pos; lia).
  assert (HY_low : 10 * (k * E) <= 9 * (B * E)).
  { replace (10 * (k * E)) with (10 * k * E) by ring.
    replace (9 * (B * E)) with (9 * B * E) by ring.
    apply Z.mul_le_mono_nonneg_r; lia. }
  assert (HY_high : 9 * (B * E) + E <= 10 * (k * E) + 10 * E).
  { replace (9 * (B * E) + E) with ((9 * B + 1) * E) by ring.
    replace (10 * (k * E) + 10 * E) with ((10 * k + 10) * E) by ring.
    apply Z.mul_le_mono_nonneg_r; lia. }
  assert (HXE : 12 * (B * E) < 9007199254740992 * E).
  { replace (12 * (B * E)) with (12 * B * E) by ring.
    apply Z.mul_lt_mono_pos_r; lia. }
  set (X := B * E) in *. set (Y := k * E) in *.
  (* the rounded value is at least k * 2^53 * E *)
  assert (Hbelow : 9007199254740992 * Y <= V * T).
  { assert (Hle : N * (c * k) <= P).
    { replace (N * (c * k)) with (9007199254740992 * Y)
        by (subst Y; rewrite (Z.mul_assoc N c k), <- Hc; ring).
      lia. }
    assert (Hdiv : c * k <= P / N) by (apply Z.div_le_lower_bound; lia).
    pose proof (Z.div_mod P N ltac:(lia)) as Hmod.
    assert (Hmul : N * (c * k) <= N * (P / N))
      by (apply Z.mul_le_mono_nonneg_l; lia).
    replace (N * (c * k)) with (9007199254740992 * Y) in Hmul
      by (subst Y; rewrite (Z.mul_assoc N c k), <- Hc; ring).
    lia. }
  (* and below (k + 1) * 2^53 * E *)
  assert (Habove : V * T < 9007199254740992 * Y + 9007199254740992 * E) by lia.
  assert (k <= V / G).
  { apply Z.div_le_lower_bound; [lia |].
    apply (Z.mul_le_mono_pos_r _ _ T); [lia |].
    replace (G * k * T) with (9007199254740992 * Y)
      by (subst Y; replace (G * k * T) with (G * T * k) by ring;
          rewrite HGT; ring).
    exact Hbelow. }
  assert (V / G < k + 1).
  { apply Z.div_lt_upper_bound; [lia |].
    apply (Z.mul_lt_mono_pos_r T); [lia |].
    replace (G * (k + 1) * T)
      with (9007199254740992 * Y + 9007199254740992 * E)
      by (subst Y; replace (G * (k + 1) * T) with (G * T * (k + 1)) by ring;
          rewrite HGT; ring).
    exact Habove. }
  lia.
Qed.

(** The integer part of the double [0.9 * limit] is the integer part of
    [9 * limit / 10], for every budget below [2^53 / 12]. *)
Lemma float_floor_nine_tenths (limit : Z) :
  0 <= limit -> 12 * limit < 2 ^ 53 ->
  exists fl,
    float_of_int limit = Returns fl
    /\ float_floor (float_mul float_0_9 fl) = Some (9 * limit / 10).
Proof.
  intros Hnonneg Hsmall.
  destruct (Z.eq_dec limit 0) as [-> | Hne].
  { eexists. split; reflexivity. }
  destruct (float_of_int_exact limit ltac:(lia)) as [mB [eB [Hfl [HdB [HeB HmB]]]]].
  exists (S754_finite false mB eB). split; [exact Hfl |].
  pose proof (digits2_pos_bounds mB) as [HmB_low HmB_high].
  rewrite HdB in HmB_low, HmB_high. change (53 - 1) with 52 in HmB_low.
  set (E := 2 ^ (- eB)) in *.
  assert (HE : 0 < E) by (apply Z.pow_pos_nonneg; lia).
  (* the budget is small, so the exponent of [float(limit)] is below -2 *)
  assert (HeB' : eB <= -3).
  { destruct (Z_le_gt_dec eB (-3)) as [| Hbig]; [assumption |].
    assert (E <= 2 ^ 2) by (apply Z.pow_le_mono_r; lia).
    change (2 ^ 2) with 4 in *. change (2 ^ 52) with 4503599627370496 in *.
    change (2 ^ 53) with 9007199254740992 in *. nia. }
  unfold float_mul, float_0_9, SFmul. cbn [xorb].
  set (P := (8106479329266893 * mB)%positive).
  assert (HP : Zpos P = 8106479329266893 * (limit * E))
    by (subst P; rewrite Pos2Z.inj_mul, HmB; reflexivity).
  pose proof (digits2_pos_bounds P) as [HP_low HP_high].
  set (dP := Zpos (digits2_pos P)) in *.
  assert (HP_range : 2 ^ 104 <= Zpos P < 2 ^ 106).
  { subst P. rewrite Pos2Z.inj_mul.
    change (2 ^ 104) with (4503599627370496 * 4503599627370496).
    change (2 ^ 106) with (9007199254740992 * 9007199254740992).
    change (2 ^ 52) with 4503599627370496 in *.
    change (2 ^ 53) with 9007199254740992 in *. nia. }
  assert (HdP : 105 <= dP <= 106).
  { split.
    - destruct (Z_le_gt_dec 105 dP) as [| Hlt]; [assumption |].
      assert (2 ^ dP <= 2 ^ 104) by (apply Z.pow_le_mono_r; lia). lia.
    - destruct (Z_le_gt_dec dP 106) as [| Hgt]; [assumption |].
      assert (2 ^ 106 <= 2 ^ (dP - 1)) by (apply Z.pow_le_mono_r; lia). lia. }
  destruct (binary_round_aux_exact P (-53 + eB)) as [m [e [Hmul [He [Hlow Hhigh]]]]];
    fold dP; try lia.
  fold dP in He, Hlow, Hhigh.
  rewrite Hmul. set (n := dP - 53) in *.
  destruct e as [| pe | pe]; try lia.
  cbn [float_floor]. f_equal. rewrite Z.pow_pos_fold.
  apply (floor_of_rounded_product limit E (2 ^ n) (2 ^ (53 - eB - n)) (Zpos P)
           (Zpos m) (2 ^ Zpos pe) (2 ^ (Zneg pe - (-53 + eB))));
    try lia; try assumption; try (apply Z.pow_pos_nonneg; lia).
  - rewrite <- Z.pow_add_r by lia. subst E. rewrite <- Z.pow_add_r by lia.
    f_equal. lia.
  - subst E. rewrite <- !Z.pow_add_r by lia. f_equal. lia.
  - replace (dP - 1) with (n + 52) in HP_low by (subst n; lia).
    rewrite Z.pow_add_r in HP_low by lia. exact HP_low.
Qed.

(** ** 04-Complex-Docs.ipynb: strategy selection *)

Section StrategySelection.
Import ComplexDocs.

(** On every budget below [2^49] tokens the double comparison of the
    notebook is the exact comparison of [10 * requested] with
    [9 * limit]. *)
Lemma select_chain_type_exact (requested limit : Z) :
  0 <= limit < 2 ^ 49 ->
  select_chain_type requested limit
  = Returns (if 9 * limit <? 10 * requested then "map_reduce" else "stuff").
Proof.
  intros [Hnonneg Hsmall].
  destruct (float_floor_nine_tenths limit Hnonneg) as [fl [Hfl Hfloor]].
  { change (2 ^ 53) with (16 * 2 ^ 49). lia. }
  unfold select_chain_type. rewrite Hfl.
  now rewrite (int_gt_float_floor _ _ _ Hfloor), ltb_tenths.
Qed.

(** Far beyond any model budget the rounding of [0.9 * limit] does show:
    [0.9 * 5004000000000005] is the double [4503600000000005.0], so a
    request of that many tokens is not above it, although it is above nine
    tenths of the limit. *)
Remark select_chain_type_rounds :
  select_chain_type 4503600000000005 5004000000000005 = Returns "stuff"
  /\ 9 * 5004000000000005 < 10 * 4503600000000005.
Proof. split; [vm_compute; reflexivity | lia]. Qed.

Lemma over_nine_tenths (requested limit : Z) :
  ((9 # 10) * inject_Z limit < inject_Z requested)%Q
  <-> 9 * limit < 10 * requested.
Proof.
  unfold Qlt, Qmult, inject_Z. cbn [Qnum Qden].
  change (Z.pos (10 * 1)) with 10. lia.
Qed.

End StrategySelection.

(** ** 04-Complex-Docs.ipynb: the token counting cell *)

Section TokenCell.
Import ComplexDocs.
Context `{Externals}.

(** What the cell does on a non-empty result list. *)
Lemma token_cell_nonempty (model : string) (completion : Z)
  (top_docs : list Document) (k : Kernel) :
  top_docs <> [] ->
  let limit := model_tokens_limit model in
  let prompt := num_tokens_from_string COMBINE_PROMPT_TEMPLATE in
  let context := num_tokens_from_docs top_docs in
  let requested := prompt + context + completion in
  token_cell model completion top_docs k
  = match select_chain_type requested limit with
    | Returns chain =>
        (Returns tt,
         mk_Kernel
           (mk_Namespace (Some limit) (Some prompt) (Some context)
              (Some requested) (Some chain))
           (output k ++
              [ "System prompt token count: " ++ str_of_int prompt;
                "Max Completion Token count: " ++ str_of_int completion;
                "Combined docs (context) token count: " ++ str_of_int context;
                "--------";
                "Requested token count: " ++ str_of_int requested;
                "Token limit for " ++ model ++ " : " ++ str_of_int limit;
                "Chain Type selected: " ++ chain ]))
    | Raises e =>
        (Raises e,
         mk_Kernel
           (mk_Namespace (Some limit) (Some prompt) (Some context)
              (Some requested) (chain_type (variables k)))
           (output k))
    end.
Proof.
  intros Hdocs. destruct top_docs as [| d ds]; [congruence |].
  unfold token_cell. cbn [List.length]. 
  replace (Z.of_nat (S (List.length ds)) >? 0) with true
    by (symmetry; apply Z.gtb_lt; lia).
  cbv zeta. unfold bind, assign, print_line, modify, eval. cbn [variables output].
  destruct (select_chain_type _ _) as [chain | e]; [| reflexivity].
  repeat rewrite <- app_assoc. reflexivity.
Qed.

(** What the cell does on an empty result list. *)
Lemma token_cell_empty (model : string) (completion : Z) (k : Kernel) :
  token_cell model completion [] k
  = (Returns tt,
     mk_Kernel (variables k) (output k ++ ["NO RESULTS FROM AZURE SEARCH"])).
Proof. reflexivity. Qed.


(** C1 (strategy selection).  Whenever the search returned documents,
    with [p] prompt-template tokens, [c] context tokens, [m] requested
    completion tokens and a model budget [B] (any budget below [2^49]
    tokens), the cell selects "map_reduce" if and only if
    [p + c + m > 0.9 * B], and "stuff" otherwise; for [B = 32768],
    [p = 1669], [c = 4111], [m = 1000] the total is [6780] and "stuff" is
    selected. *)
Theorem strategy_selection (model : string) (m : Z)
  (top_docs : list Document) (k : Kernel) :
  let p := num_tokens_from_string COMBINE_PROMPT_TEMPLATE in
  let c := num_tokens_from_docs top_docs in
  let B := model_tokens_limit model in
  top_docs <> [] ->
  0 <= B < 2 ^ 49 ->
  (exists k',
      token_cell model m top_docs k = (Returns tt, k')
      /\ (chain_type (variables k') = Some "map_reduce"
          <-> ((9 # 10) * inject_Z B < inject_Z (p + c + m))%Q)
      /\ (chain_type (variables k') = Some "stuff"
          <-> ~ ((9 # 10) * inject_Z B < inject_Z (p + c + m))%Q))
  /\ 1669 + 4111 + 1000 = 6780
  /\ select_chain_type (1669 + 4111 + 1000) 32768 = Returns "stuff".
Proof.
  intros p c B Hdocs HB. split; [| split; [reflexivity |]].
  - rewrite (token_cell_nonempty model m top_docs k Hdocs).
    fold p c B. rewrite (select_chain_type_exact (p + c + m) B HB).
    eexists. split; [reflexivity |]. cbn [variables chain_type].
    rewrite !over_nine_tenths.
    destruct (Z.ltb_spec (9 * B) (10 * (p + c + m))) as [Hlt | Hge].
    + split; split; intros Hsel; try reflexivity; try assumption;
        try discriminate; contradiction.
    + split; split; intros Hsel; try reflexivity; try discriminate; lia.
  - now rewrite select_chain_type_exact by lia.
Qed.

(** C10 (empty-result guard).  On an empty result list the cell assigns
    no variable (no token count, no chain type) and prints the fixed
    message; on a non-empty one it does assign the token counts and prints
    no such message by itself. *)
Theorem empty_result_guard (model : string) (m : Z)
  (top_docs : list Document) (k : Kernel) :
  match top_docs with
  | [] =>
      token_cell model m top_docs k
      = (Returns tt,
         mk_Kernel (variables k)
           (output k ++ ["NO RESULTS FROM AZURE SEARCH"]))
  | _ :: _ =>
      let k' := snd (token_cell model m top_docs k) in
      tokens_limit (variables k') = Some (model_tokens_limit model)
      /\ prompt_tokens (variables k')
         = Some (num_tokens_from_string COMBINE_PROMPT_TEMPLATE)
      /\ context_tokens (variables k') = Some (num_tokens_from_docs top_docs)
      /\ exists lines,
          output k' = (output k ++ lines)%list
          /\ ~ In "NO RESULTS FROM AZURE SEARCH" lines
  end.
Proof.
  destruct top_docs as [| d ds]; [apply token_cell_empty |].
  cbv zeta. rewrite token_cell_nonempty by discriminate.
  destruct (select_chain_type _ _) as [chain | e]; cbn [snd variables output
    tokens_limit prompt_tokens context_tokens].
  - repeat split. eexists. split; [reflexivity |].
    cbn [In]. intros Hin.
    repeat (destruct Hin as [Hin | Hin]; [discriminate Hin |]).
    exact Hin.
  - repeat split. exists []. split; [now rewrite app_nil_r | intros []].
Qed.

End TokenCell.

(** The run recorded in the notebook satisfies the premises of
    [strategy_selection] and selects "stuff". *)
Lemma strategy_selection_recorded_run :
  ComplexDocs.recorded_docs <> []
  /\ 0 <= @ComplexDocs.model_tokens_limit ComplexDocs.recorded_run
            ComplexDocs.MODEL < 2 ^ 49
  /\ exists k',
      @ComplexDocs.token_cell ComplexDocs.recorded_run ComplexDocs.MODEL
        ComplexDocs.COMPLETION_TOKENS ComplexDocs.recorded_docs
        (ComplexDocs.mk_Kernel ComplexDocs.empty_namespace [])
      = (Returns tt, k')
      /\ ComplexDocs.chain_type (ComplexDocs.variables k') = Some "stuff".
Proof.
  assert (Hdocs : ComplexDocs.recorded_docs <> []) by discriminate.
  assert (HB : 0 <= @ComplexDocs.model_tokens_limit ComplexDocs.recorded_run
                      ComplexDocs.MODEL < 2 ^ 49) by (simpl; lia).
  split; [exact Hdocs | split; [exact HB |]].
  destruct (@strategy_selection ComplexDocs.recorded_run ComplexDocs.MODEL
              ComplexDocs.COMPLETION_TOKENS ComplexDocs.recorded_docs
              (ComplexDocs.mk_Kernel ComplexDocs.empty_namespace [])
              Hdocs HB) as [[k' [Hrun [_ Hstuff]]] _].
  exists k'. split; [exact Hrun |].
  apply Hstuff. unfold Qlt. simpl. lia.
Defined.

(** ** 04-Complex-Docs.ipynb: the upload loop *)

Section UploadLoop.
Import ComplexDocs.
Context `{Externals}.





End UploadLoop.


(** ** 06-TabularDataQA.ipynb: the retry loop *)

Section RetryFive.
Import TabularDataQA.
Context `{Externals}.

Hypothesis always_raises :
  forall input history, exists e, agent_executor_answer input history = Raises e.

Lemma attempt_fails (w : World event) :
  attempt w
  = (Returns (Continue, "Error too many failed retries"),
     mk_World
       (trace w ++ [AgentRun (CSV_PROMPT_PREFIX ++ QUESTION ++ CSV_PROMPT_SUFFIX)])
       (stdout w)).
Proof.
  unfold attempt, try_except_all, bind, agent_executor_run, external.
  destruct (always_raises (CSV_PROMPT_PREFIX ++ QUESTION ++ CSV_PROMPT_SUFFIX)
              (trace w)) as [e ->].
  reflexivity.
Qed.

Lemma retry_fails (n : nat) :
  forall (response : option string) (w : World event),
  exists w',
    retry (S n) response w = (Returns (Some "Error too many failed retries"), w')
    /\ invocations (trace w') = (invocations (trace w) + S n)%nat
    /\ stdout w' = stdout w.
Proof.
  induction n as [| n IH]; intros response w.
  - cbn [retry]. rewrite (bind_Returns _ _ _ _ _ (attempt_fails w)).
    eexists. split; [reflexivity |]. cbn [trace stdout]. unfold invocations.
    rewrite length_app. now split.
  - change (retry (S (S n)) response w)
      with (bind attempt
              (fun r => match r with
                        | (Break, response') => ret (Some response')
                        | (Continue, response') => retry (S n) (Some response')
                        end) w).
    rewrite (bind_Returns _ _ _ _ _ (attempt_fails w)).
    destruct (IH (Some "Error too many failed retries")
                (mk_World
                   (trace w ++ [AgentRun (CSV_PROMPT_PREFIX ++ QUESTION
                                            ++ CSV_PROMPT_SUFFIX)])
                   (stdout w))) as [w' [Hrun [Hcount Hout]]].
    exists w'. split; [exact Hrun |]. split; [| exact Hout].
    rewrite Hcount. cbn [trace]. unfold invocations. rewrite length_app.
    cbn [List.length]. lia.
Qed.

End RetryFive.

(** ** 09-API-Search.ipynb: the retry loop *)

Section RetryTwo.
Import APISearch.
Context `{Externals}.

Hypothesis always_raises :
  forall input history,
  exists e,
    agent_executor_answer input history = Raises e
    /\ exn_is_Exception e = true.

Lemma attempt_reports (question : string) (w : World event) :
  exists e,
    agent_executor_answer question (trace w) = Raises e
    /\ attempt question w
       = (Returns (Continue, exn_str e),
          mk_World (trace w ++ [AgentRun question]) (stdout w)).
Proof.
  destruct (always_raises question (trace w)) as [e [Hraise Hexc]].
  exists e. split; [exact Hraise |].
  unfold attempt, try_except_Exception, bind, agent_executor_run, external.
  now rewrite Hraise, Hexc.
Qed.

Lemma invocations_app (t u : list event) :
  invocations (t ++ u) = (invocations t + invocations u)%nat.
Proof. unfold invocations. now rewrite filter_app, length_app. Qed.

Lemma answer_cell_reports (question : string) (w : World event) :
  exists e w',
    answer_cell question w = (Returns (Some (exn_str e)), w')
    /\ agent_executor_answer question (trace w ++ [AgentRun question]) = Raises e
    /\ invocations (trace w') = (invocations (trace w) + 2)%nat.
Proof.
  destruct (attempt_reports question w) as [e1 [_ Hfirst]].
  destruct (attempt_reports question
              (mk_World (trace w ++ [AgentRun question]) (stdout w)))
    as [e2 [Hraise Hsecond]].
  cbn [trace stdout] in Hraise, Hsecond.
  exists e2. eexists. split; [| split; [exact Hraise |]].
  - unfold answer_cell. cbn [retry].
    rewrite (bind_Returns _ _ _ _ _ Hfirst).
    rewrite (bind_Returns _ _ _ _ _ Hsecond). reflexivity.
  - cbn [trace]. rewrite !invocations_app. cbn. lia.
Qed.

End RetryTwo.

(** C3 (retry bound), as the two loops have it.  For an agent run that
    raises on every call, the loop of notebook 06 runs it exactly five times
    and leaves the fixed message "Error too many failed retries"; the loop
    of notebook 09, for an agent run that raises an [Exception] on every
    call, runs it exactly twice and leaves [str(e)] of the exception of the
    second run. *)
Theorem retry_bound (E6 : TabularDataQA.Externals) (E9 : APISearch.Externals)
  (question : string) :
  (forall input history,
      exists e, TabularDataQA.agent_executor_answer input history = Raises e) ->
  (forall input history,
      exists e,
        APISearch.agent_executor_answer input history = Raises e
        /\ exn_is_Exception e = true) ->
  (forall w : World TabularDataQA.event,
      exists w',
        TabularDataQA.answer_cell w
        = (Returns "Error too many failed retries", w')
        /\ TabularDataQA.invocations (trace w')
           = (TabularDataQA.invocations (trace w) + 5)%nat)
  /\ (forall w : World APISearch.event,
         exists e w',
           APISearch.answer_cell question w = (Returns (Some (exn_str e)), w')
           /\ APISearch.agent_executor_answer question
                (trace w ++ [APISearch.AgentRun question]) = Raises e
           /\ APISearch.invocations (trace w')
              = (APISearch.invocations (trace w) + 2)%nat).
Proof.
  intros Hsix Hnine. split.
  - intros w. destruct (retry_fails Hsix 4 None w) as [w' [Hrun [Hcount _]]].
    eexists. split.
    + unfold TabularDataQA.answer_cell.
      rewrite (bind_Returns _ _ _ _ _ Hrun). reflexivity.
    + cbn [trace]. exact Hcount.
  - intros w. apply answer_cell_reports. exact Hnine.
Qed.

(** With collaborators that are throttled on every call, the premises of
    [retry_bound] hold: five runs and the fixed message in notebook 06, two
    runs and the message of the exception in notebook 09. *)
Lemma retry_bound_throttled :
  (exists w',
      @TabularDataQA.answer_cell TabularDataQA.always_failing initial_world
      = (Returns "Error too many failed retries", w')
      /\ TabularDataQA.invocations (trace w') = 5%nat)
  /\ (exists w',
         @APISearch.answer_cell APISearch.outage "What is to-date the amount of people tested in Argentina vs USA?" initial_world
         = (Returns (Some "Requests to the API are throttled"), w')
         /\ APISearch.invocations (trace w') = 2%nat).
Proof.
  assert (Hsix : forall input history,
             exists e,
               @TabularDataQA.agent_executor_answer TabularDataQA.always_failing
                 input history = Raises e)
    by (intros; eexists; reflexivity).
  assert (Hnine : forall input history,
             exists e,
               @APISearch.agent_executor_answer APISearch.outage input history
               = Raises e
               /\ exn_is_Exception e = true)
    by (intros; eexists; split; reflexivity).
  destruct (retry_bound TabularDataQA.always_failing APISearch.outage
              "What is to-date the amount of people tested in Argentina vs USA?"
              Hsix Hnine) as [Hsix' Hnine'].
  split.
  - destruct (Hsix' initial_world) as [w' [Hrun Hcount]].
    exists w'. split; [exact Hrun | exact Hcount].
  - destruct (Hnine' initial_world) as [e [w' [Hrun [Hraise Hcount]]]].
    exists w'. split; [| exact Hcount].
    rewrite Hrun. cbn in Hraise. injection Hraise as <-. reflexivity.
Defined.

(** C3 as it is stated fails on both loops.  Against an agent that is
    throttled on every call, the loop of notebook 06 runs it more than
    twice; and the loop of notebook 09 leaves no fixed message: its final
    text is not "Error too many failed retries", and it differs between two
    agents that both raise on every call. *)
Lemma retry_bound_refuted :
  ~ (TabularDataQA.invocations
       (trace (snd (@TabularDataQA.answer_cell TabularDataQA.always_failing
                      initial_world))) <= 2)%nat
  /\ fst (@APISearch.answer_cell APISearch.outage "q" initial_world)
     <> Returns (Some "Error too many failed retries")
  /\ fst (@APISearch.answer_cell APISearch.outage "q" initial_world)
     <> fst (@APISearch.answer_cell APISearch.unparsable "q" initial_world).
Proof.
  split; [| split].
  - vm_compute. lia.
  - vm_compute. discriminate.
  - vm_compute. discriminate.
Qed.

(** ** 09-API-Search.ipynb: the tools *)

Section Tools.
Import APISearch.
Context `{Externals}.

(** The schema-less tool performs its request whatever comes of it. *)
Lemma MySimpleAPISearch_run_trace (self : MySimpleAPISearch) (query : string)
  (w : World event) :
  trace (snd (MySimpleAPISearch_run self query w))
  = (trace w ++ [HttpGet countdown_endpoint (search_params self query) []])%list.
Proof.
  unfold MySimpleAPISearch_run, bind, requests_get, external.
  destruct (http_answer _ _ _ _) as [api_result | e]; [| reflexivity].
  unfold try_except_Exception, eval, ret.
  destruct (json_loads _) as [parsed | e]; [reflexivity |].
  now destruct (exn_is_Exception e).
Qed.

(** Its result, case by case. *)
Lemma MySimpleAPISearch_run_result (self : MySimpleAPISearch) (query : string)
  (w : World event) :
  fst (MySimpleAPISearch_run self query w)
  = match http_answer countdown_endpoint (search_params self query) []
            (trace w) with
    | Raises e => Raises e
    | Returns api_result =>
        match json_loads (text api_result) with
        | Returns parsed => Returns (VStr (json_dumps parsed))
        | Raises e => if exn_is_Exception e then Returns (VExc e) else Raises e
        end
    end.
Proof.
  unfold MySimpleAPISearch_run, bind, requests_get, external.
  destruct (http_answer _ _ _ _) as [api_result | e]; [| reflexivity].
  unfold try_except_Exception, eval, ret.
  destruct (json_loads _) as [parsed | e]; [reflexivity |].
  now destruct (exn_is_Exception e).
Qed.

(** C7 (schema-less invocation shape).  For every query text the
    schema-less tool issues exactly one HTTP GET request, to the fixed
    endpoint, with the parameter map in which [search_term] is the query,
    [api_key] is the tool's key and the other parameters are fixed; when
    the response is JSON it returns its serialization. *)
Theorem schemaless_invocation (self : MySimpleAPISearch) (query : string)
  (w : World event) :
  let params :=
    [ ("api_key", api_key self); ("type", "search");
      ("ebay_domain", "ebay.com"); ("search_term", query) ] in
  trace (snd (MySimpleAPISearch_run self query w))
  = (trace w ++ [HttpGet "https://api.countdownapi.com/request" params []])%list
  /\ dict_get params "search_term" = Some query
  /\ dict_get params "api_key" = Some (api_key self)
  /\ forall api_result parsed,
      http_answer "https://api.countdownapi.com/request" params [] (trace w)
      = Returns api_result ->
      json_loads (text api_result) = Returns parsed ->
      fst (MySimpleAPISearch_run self query w)
      = Returns (VStr (json_dumps parsed)).
Proof.
  cbv zeta. split; [apply MySimpleAPISearch_run_trace |].
  split; [reflexivity |]. split; [reflexivity |].
  intros api_result parsed Hget Hjson.
  rewrite MySimpleAPISearch_run_result.
  unfold countdown_endpoint, search_params. now rewrite Hget, Hjson.
Qed.

(** When the chain raises an [Exception], the spec-guided tool returns
    the exception object. *)
Lemma MyAPISearch_run_returns_exception (self : MyAPISearch) (query : string)
  (w w' : World event) (e : exn) :
  APIChain_run
    (from_llm_and_api_docs (llm self) (api_spec self) (headers self)
       (verbose self) (limit_to_domains self))
    query (mk_World (trace w ++ [Sleep 2]) (stdout w))
  = (Raises e, w') ->
  exn_is_Exception e = true ->
  MyAPISearch_run self query w = (Returns (VExc e), w').
Proof.
  intros Hchain Hexc.
  unfold MyAPISearch_run, bind, try_except_Exception, sleep, external.
  cbn [trace stdout]. now rewrite Hchain, Hexc.
Qed.

(** The chain rejects a request outside a configured allow-list before
    any HTTP request is made. *)
Lemma APIChain_run_rejects (chain : APIChain) (question api_url : string)
  (w : World event) :
  chain_limit_to_domains chain <> [] ->
  llm_request_answer (chain_api_docs chain) question (trace w) = Returns api_url ->
  in_allowed_domain api_url (chain_limit_to_domains chain) = false ->
  APIChain_run chain question w
  = (Raises (DomainNotAllowed api_url (chain_limit_to_domains chain)),
     mk_World (trace w ++ [Synthesize (chain_api_docs chain) question])
       (stdout w)).
Proof.
  intros Hconfigured Hllm Hforeign.
  unfold APIChain_run, bind, external. rewrite Hllm.
  destruct (chain_limit_to_domains chain) as [| d ds] eqn:Hlimit;
    [congruence |].
  rewrite Hforeign. reflexivity.
Qed.

End Tools.

(** The demo service answers with a JSON body, which the schema-less tool
    returns serialized after its single request. *)
Lemma schemaless_invocation_demo :
  trace (snd (@APISearch.MySimpleAPISearch_run APISearch.answers_with_y_test
                (APISearch.mk_MySimpleAPISearch "demo") "memory cards"
                initial_world))
  = [APISearch.HttpGet "https://api.countdownapi.com/request"
       [ ("api_key", "demo"); ("type", "search"); ("ebay_domain", "ebay.com");
         ("search_term", "memory cards") ] []]
  /\ fst (@APISearch.MySimpleAPISearch_run APISearch.answers_with_y_test
            (APISearch.mk_MySimpleAPISearch "demo") "memory cards"
            initial_world)
     = Returns (VStr "{}").
Proof.
  destruct (@schemaless_invocation APISearch.answers_with_y_test
              (APISearch.mk_MySimpleAPISearch "demo") "memory cards"
              initial_world) as [Htrace [_ [_ Hresult]]].
  split; [exact Htrace |].
  exact (Hresult (APISearch.mk_http_response 200 "{}") "{}" eq_refl eq_refl).
Defined.

(** C2 (text-only result contract) does not hold of the two tools.  When
    the completion model behind the chain is throttled, [MyAPISearch._run]
    returns the exception object itself, which is not a [str]; when the
    transport cannot connect, the exception of [requests.get] leaves
    [MySimpleAPISearch._run] uncaught; and when the body is not JSON, that
    tool too returns the exception object. *)
Theorem text_only_contract_broken :
  fst (@APISearch.MyAPISearch_run APISearch.outage APISearch.x_test_tool
         "COVID-19 testing numbers in Argentina and USA" initial_world)
  = Returns (VExc APISearch.RateLimitError)
  /\ is_str (VExc APISearch.RateLimitError) = false
  /\ fst (@APISearch.MySimpleAPISearch_run APISearch.outage
            (APISearch.mk_MySimpleAPISearch "demo") "SanDisk memory card price"
            initial_world)
     = Raises APISearch.ConnectionError
  /\ fst (@APISearch.MySimpleAPISearch_run APISearch.html_error_page
            (APISearch.mk_MySimpleAPISearch "demo") "SanDisk memory card price"
            initial_world)
     = Returns (VExc APISearch.JSONDecodeError).
Proof. repeat split. Qed.

(** C4 (domain enforcement): with the allow-list [["https://x.test/"]] a
    request synthesized for [https://y.test/...] is rejected before
    execution and no HTTP request is made, but what [MyAPISearch._run]
    returns is the exception object, not a text. *)
Theorem domain_rejection_is_not_text :
  let run := @APISearch.MyAPISearch_run APISearch.answers_with_y_test
               APISearch.x_test_tool "amount of people tested in Argentina vs USA"
               initial_world in
  fst run
  = Returns (VExc (APISearch.DomainNotAllowed "https://y.test/v1/data"
                     ["https://x.test/"]))
  /\ APISearch.http_requests (trace (snd run)) = []
  /\ forall v, fst run = Returns v -> is_str v = false.
Proof.
  cbv zeta. split; [reflexivity |]. split; [reflexivity |].
  intros v Hrun. vm_compute in Hrun. now injection Hrun as <-.
Qed.

(** ** The spec reducer *)

Section Reducer.
Import SpecReducer.

Lemma reduce_parameter_idempotent (p : parameter) :
  reduce_parameter (reduce_parameter p) = reduce_parameter p.
Proof. reflexivity. Qed.

Lemma reduce_operation_idempotent (op : operation) :
  reduce_operation (reduce_operation op) = reduce_operation op.
Proof.
  unfold reduce_operation at 1 3.
  cbn [op_method op_path op_summary op_description op_parameters op_response
         reduce_operation].
  rewrite map_map. reflexivity.
Qed.

Lemma reduce_operations_idempotent (ops : list operation) :
  map reduce_operation (map reduce_operation ops) = map reduce_operation ops.
Proof.
  rewrite map_map. apply map_ext. exact reduce_operation_idempotent.
Qed.

(** C5 (idempotent reduction).  For every valid API description [D] the
    reduction succeeds, and reducing the reduced description yields the
    same reduced description: [reduce(reduce(D)) == reduce(D)]. *)
Theorem idempotent_reduction (D : description) :
  valid D ->
  exists R, reduce D = Reduced R /\ reduce R = Reduced R.
Proof.
  destruct D as [| [[| op ops] |]]; cbn [valid]; try contradiction.
  intros _. eexists. split; [reflexivity |].
  cbn [reduce map]. rewrite reduce_operation_idempotent.
  now rewrite reduce_operations_idempotent.
Qed.

(** C8 (malformed input).  On a document whose top-level operation
    collection is missing entirely, [reduce] returns a MalformedSpec
    result that carries a textual explanation; so it does on a document
    that is not a mapping or that describes no operation. *)
Theorem malformed_input :
  reduce (Mapping None)
  = MalformedSpec "the API description has no collection of operations"
  /\ reduce NotAMapping = MalformedSpec "the API description is not a mapping"
  /\ reduce (Mapping (Some []))
     = MalformedSpec "the API description describes no operation".
Proof. repeat split. Qed.

End Reducer.

(** The description of the end-to-end scenario is valid, and reducing it
    twice gives what reducing it once gives. *)
Lemma idempotent_reduction_disease_sh :
  SpecReducer.valid SpecReducer.disease_sh
  /\ exists R,
      SpecReducer.reduce SpecReducer.disease_sh = SpecReducer.Reduced R
      /\ SpecReducer.reduce R = SpecReducer.Reduced R.
Proof.
  assert (Hvalid : SpecReducer.valid SpecReducer.disease_sh).
  { simpl. constructor; [intros [] | constructor]. }
  split; [exact Hvalid |].
  exact (idempotent_reduction SpecReducer.disease_sh Hvalid).
Defined.

(* ================================================================== *)
(** * Part III.  Further properties of the cells                       *)
(* ================================================================== *)

(** ** 04-Complex-Docs.ipynb: the upload loop as a whole *)

Section UploadLoopRuns.
Import ComplexDocs ComplexDocsQuery.
Context `{Externals}.

(** What one page sends and prints, by the answers it gets. *)
Lemma upload_page_cases (bookname : string) (pg : page) (w : World event) :
  let content := snd pg in
  let input := if negb (content =? "")%string then content else "-------" in
  let url := AZURE_SEARCH_ENDPOINT ++ "/indexes/" ++ book_index_name
               ++ "/docs/index" in
  let doc := page_document bookname pg in
  upload_page bookname pg w
  = match embedder_answer input (trace w) with
    | Raises e =>
        (if exn_is_Exception e then Returns tt else Raises e,
         mk_World (trace w ++ [EmbedQuery input])
           (if exn_is_Exception e
            then (stdout w ++ ["Exception: " ++ exn_str e]) ++ [content]
            else stdout w))
    | Returns v =>
        match search_service_answer url [doc v]
                (trace w ++ [EmbedQuery input]) with
        | Raises e =>
            (if exn_is_Exception e then Returns tt else Raises e,
             mk_World ((trace w ++ [EmbedQuery input])
                         ++ [Post url [doc v] headers params])
               (if exn_is_Exception e
                then (stdout w ++ ["Exception: " ++ exn_str e]) ++ [content]
                else stdout w))
        | Returns r =>
            (Returns tt,
             mk_World ((trace w ++ [EmbedQuery input])
                         ++ [Post url [doc v] headers params])
               (if negb (status_code r =? 200)
                then (stdout w ++ [str_of_int (status_code r)]) ++ [text r]
                else stdout w))
        end
    end.
Proof.
  destruct pg as [[idx off] content].
  unfold upload_page, try_except_Exception, bind, embed_query, requests_post,
    external. cbn [fst snd trace stdout].
  destruct (embedder_answer _ (trace w)) as [v | e].
  - destruct (search_service_answer _ _ _) as [r | e]; cbn [trace stdout].
    + now destruct (negb (status_code r =? 200)).
    + now destruct (exn_is_Exception e).
  - now destruct (exn_is_Exception e).
Qed.


Lemma embed_inputs_app (t u : list event) :
  embed_inputs (t ++ u) = (embed_inputs t ++ embed_inputs u)%list.
Proof. apply flat_map_app. Qed.

Lemma posted_app (t u : list event) :
  posted (t ++ u) = (posted t ++ posted u)%list.
Proof. apply flat_map_app. Qed.

Lemma all_pages_cons (bookname : string) (bookmap : list page)
  (rest : list (string * list page)) :
  all_pages ((bookname, bookmap) :: rest)
  = (map (pair bookname) bookmap ++ all_pages rest)%list.
Proof. reflexivity. Qed.

Section OnlyExceptions.

Hypothesis embedder_raises_Exception :
  forall input history e,
    embedder_answer input history = Raises e -> exn_is_Exception e = true.
Hypothesis search_service_raises_Exception :
  forall url value history e,
    search_service_answer url value history = Raises e ->
    exn_is_Exception e = true.

Lemma upload_page_visits (bookname : string) (pg : page) (w : World event) :
  exists new out,
    upload_page bookname pg w
    = (Returns tt, mk_World (trace w ++ new) (stdout w ++ out))
    /\ embed_inputs new
       = [if negb (snd pg =? "")%string then snd pg else "-------"]
    /\ (List.length (posted new) <= 1)%nat.
Proof.
  rewrite upload_page_cases. cbv zeta.
  destruct (embedder_answer _ (trace w)) as [v | e] eqn:Hembed.
  - destruct (search_service_answer _ _ _) as [r | e] eqn:Hpost.
    + eexists [_; _], (if negb (status_code r =? 200) then [_; _] else []).
      split.
      * rewrite <- app_assoc. cbn [app]. do 2 f_equal.
        destruct (negb (status_code r =? 200));
          [now rewrite <- app_assoc | now rewrite app_nil_r].
      * split; [reflexivity | cbn; lia].
    + rewrite (search_service_raises_Exception _ _ _ _ Hpost).
      eexists [_; _], [_; _]. split.
      * now rewrite <- !app_assoc.
      * split; [reflexivity | cbn; lia].
  - rewrite (embedder_raises_Exception _ _ _ Hembed).
    eexists [_], [_; _]. split.
    + now rewrite <- !app_assoc.
    + split; [reflexivity | cbn; lia].
Qed.

Lemma upload_pages_visits (bookname : string) (bookmap : list page) :
  forall w : World event,
  exists new out,
    upload_pages bookname bookmap w
    = (Returns tt, mk_World (trace w ++ new) (stdout w ++ out))
    /\ embed_inputs new
       = map (fun bp : string * page =>
                if negb (snd (snd bp) =? "")%string
                then snd (snd bp) else "-------")
           (map (pair bookname) bookmap)
    /\ (List.length (posted new) <= List.length bookmap)%nat.
Proof.
  induction bookmap as [| pg rest IH]; intros w.
  - exists [], []. cbn [upload_pages]. unfold ret. rewrite !app_nil_r.
    destruct w. repeat split. cbn. lia.
  - cbn [upload_pages]. unfold bind at 1.
    destruct (upload_page_visits bookname pg w)
      as [new1 [out1 [-> [Hembed1 Hposted1]]]].
    destruct (IH (mk_World (trace w ++ new1) (stdout w ++ out1)))
      as [new2 [out2 [-> [Hembed2 Hposted2]]]].
    cbn [trace stdout]. exists (new1 ++ new2)%list, (out1 ++ out2)%list.
    rewrite !app_assoc. split; [reflexivity |]. split.
    + rewrite embed_inputs_app, Hembed1, Hembed2. reflexivity.
    + rewrite posted_app, length_app. cbn [List.length]. lia.
Qed.

(** X1: one bad page never stops the upload.  If the embedding deployment
    and the search service fail only with exceptions that derive from
    [Exception], the loop over all books ends normally; it asks for exactly
    one embedding per parsed page, in the order of the pages, of the page's
    text or of "-------" for a page without text; and it posts at most one
    document per page. *)
Theorem upload_never_stops (book_pages_map : list (string * list page)) :
  forall w : World event,
  exists new out,
    upload_books book_pages_map w
    = (Returns tt, mk_World (trace w ++ new) (stdout w ++ out))
    /\ embed_inputs new
       = map (fun bp : string * page =>
                if negb (snd (snd bp) =? "")%string
                then snd (snd bp) else "-------")
           (all_pages book_pages_map)
    /\ (List.length (posted new)
        <= List.length (all_pages book_pages_map))%nat.
Proof.
  induction book_pages_map as [| [bookname bookmap] rest IH]; intros w.
  - exists [], []. cbn [upload_books]. unfold ret. rewrite !app_nil_r.
    destruct w. repeat split. cbn. lia.
  - cbn [upload_books]. unfold bind at 1, print at 1. unfold bind at 1.
    destruct (upload_pages_visits bookname bookmap
                (mk_World (trace w)
                   (stdout w ++ ["Uploading chunks from " ++ bookname])))
      as [new1 [out1 [-> [Hembed1 Hposted1]]]].
    cbn [trace stdout].
    destruct (IH (mk_World (trace w ++ new1)
                    ((stdout w ++ ["Uploading chunks from " ++ bookname])
                       ++ out1)))
      as [new2 [out2 [-> [Hembed2 Hposted2]]]].
    cbn [trace stdout].
    exists (new1 ++ new2)%list,
      (("Uploading chunks from " ++ bookname)%string :: out1 ++ out2)%list.
    split; [| split].
    + rewrite <- !app_assoc. reflexivity.
    + rewrite embed_inputs_app, Hembed1, Hembed2, all_pages_cons, map_app.
      reflexivity.
    + rewrite posted_app, all_pages_cons, !length_app, length_map. lia.
Qed.

End OnlyExceptions.


Section AllSucceed.

Hypothesis embedder_returns :
  forall input history, exists v, embedder_answer input history = Returns v.
Hypothesis search_service_accepts :
  forall url value history,
  exists r,
    search_service_answer url value history = Returns r /\ status_code r = 200.

Lemma upload_page_succeeds (bookname : string) (pg : page) (w : World event) :
  exists new v,
    upload_page bookname pg w
    = (Returns tt, mk_World (trace w ++ new) (stdout w))
    /\ posted new = [page_document bookname pg v].
Proof.
  rewrite upload_page_cases. cbv zeta.
  destruct (embedder_returns
              (if negb (snd pg =? "")%string then snd pg else "-------")
              (trace w)) as [v ->].
  destruct (search_service_accepts
              (AZURE_SEARCH_ENDPOINT ++ "/indexes/" ++ book_index_name
                 ++ "/docs/index")
              [page_document bookname pg v]
              (trace w ++ [EmbedQuery (if negb (snd pg =? "")%string
                                       then snd pg else "-------")]))
    as [r [-> ->]].
  cbn [Z.eqb Pos.eqb negb]. eexists [_; _], v. split.
  - now rewrite <- app_assoc.
  - reflexivity.
Qed.

Lemma upload_pages_succeed (bookname : string) (bookmap : list page) :
  forall w : World event,
  exists new,
    upload_pages bookname bookmap w
    = (Returns tt, mk_World (trace w ++ new) (stdout w))
    /\ Forall2 (fun doc (bp : string * page) =>
                  exists v, doc = page_document (fst bp) (snd bp) v)
         (posted new) (map (pair bookname) bookmap).
Proof.
  induction bookmap as [| pg rest IH]; intros w.
  - exists []. cbn [upload_pages]. unfold ret. rewrite !app_nil_r.
    destruct w. split; [reflexivity | constructor].
  - cbn [upload_pages]. unfold bind at 1.
    destruct (upload_page_succeeds bookname pg w) as [new1 [v [-> Hposted1]]].
    destruct (IH (mk_World (trace w ++ new1) (stdout w)))
      as [new2 [-> Hposted2]].
    cbn [trace stdout]. exists (new1 ++ new2)%list.
    rewrite !app_assoc. split; [reflexivity |].
    rewrite posted_app, Hposted1. cbn [app map].
    constructor; [now exists v | exact Hposted2].
Qed.

(** X2: a clean upload is silent and complete.  If every embedding call
    returns and the search service answers every request with status 200,
    the loop prints only the line "Uploading chunks from <book>" of each
    book, and it posts exactly one document per parsed page, in the order
    of the pages, built from the book's name and the page. *)
Theorem upload_all_pages (book_pages_map : list (string * list page)) :
  forall w : World event,
  exists new,
    upload_books book_pages_map w
    = (Returns tt,
       mk_World (trace w ++ new)
         (stdout w ++ map (fun book : string * list page =>
                             "Uploading chunks from " ++ fst book)
                        book_pages_map))
    /\ Forall2 (fun doc (bp : string * page) =>
                  exists v, doc = page_document (fst bp) (snd bp) v)
         (posted new) (all_pages book_pages_map).
Proof.
  induction book_pages_map as [| [bookname bookmap] rest IH]; intros w.
  - exists []. cbn [upload_books map]. unfold ret. rewrite !app_nil_r.
    destruct w. split; [reflexivity | constructor].
  - cbn [upload_books]. unfold bind at 1, print at 1. unfold bind at 1.
    destruct (upload_pages_succeed bookname bookmap
                (mk_World (trace w)
                   (stdout w ++ ["Uploading chunks from " ++ bookname])))
      as [new1 [-> Hposted1]].
    cbn [trace stdout].
    destruct (IH (mk_World (trace w ++ new1)
                    (stdout w ++ ["Uploading chunks from " ++ bookname])))
      as [new2 [-> Hposted2]].
    cbn [trace stdout]. exists (new1 ++ new2)%list. split.
    + rewrite <- !app_assoc. reflexivity.
    + rewrite posted_app, all_pages_cons. now apply Forall2_app.
Qed.

End AllSucceed.

End UploadLoopRuns.

(** Of three pages, one refused by the embedder and one by the service,
    all three are embedded. *)
Lemma upload_never_stops_flaky_run :
  exists new out,
    @ComplexDocs.upload_books ComplexDocsQuery.flaky_run
      ComplexDocsQuery.three_pages initial_world
    = (Returns tt, mk_World new out)
    /\ ComplexDocsQuery.embed_inputs new
       = ["-------"; "too long"; "Azure AI Search"]
    /\ (List.length (ComplexDocsQuery.posted new) <= 3)%nat.
Proof.
  assert (Hembed : forall input history e,
             @ComplexDocs.embedder_answer ComplexDocsQuery.flaky_run
               input history = Raises e ->
             exn_is_Exception e = true).
  { intros input history e. cbn.
    destruct (input =? "too long")%string; [| discriminate].
    intros [= <-]. reflexivity. }
  assert (Hpost : forall url value history e,
             @ComplexDocs.search_service_answer ComplexDocsQuery.flaky_run
               url value history = Raises e ->
             exn_is_Exception e = true).
  { intros url value history e. cbn.
    destruct value as [| doc rest]; [discriminate |].
    destruct (ComplexDocs.doc_chunk doc =? "")%string; discriminate. }
  exact (upload_never_stops Hembed Hpost ComplexDocsQuery.three_pages
           initial_world).
Defined.

(** The two pages of [images.pdf] are both posted, and nothing but the
    name of the book is printed. *)
Lemma upload_all_pages_images_pdf :
  exists new,
    @ComplexDocs.upload_books ComplexDocs.recorded_run ComplexDocs.images_pdf
      initial_world
    = (Returns tt, mk_World new ["Uploading chunks from images.pdf"])
    /\ Forall2 (fun doc (bp : string * ComplexDocs.page) =>
                  exists v,
                    doc = @ComplexDocsQuery.page_document
                            ComplexDocs.recorded_run (fst bp) (snd bp) v)
         (ComplexDocsQuery.posted new)
         [("images.pdf", (0, 0, "")); ("images.pdf", (1, 4, "Priority 1 AOAI"))].
Proof.
  assert (Hembed : forall input history,
             exists v,
               @ComplexDocs.embedder_answer ComplexDocs.recorded_run
                 input history = Returns v).
  { intros input history. eexists. reflexivity. }
  assert (Hpost : forall url value history,
             exists r,
               @ComplexDocs.search_service_answer ComplexDocs.recorded_run
                 url value history = Returns r
               /\ ComplexDocs.status_code r = 200).
  { intros url value history. eexists. split; reflexivity. }
  exact (upload_all_pages Hembed Hpost ComplexDocs.images_pdf initial_world).
Defined.

(** ** 04-Complex-Docs.ipynb: the keys of the uploaded documents *)

Lemma str_of_int_inj (m n : Z) : str_of_int m = str_of_int n -> m = n.
Proof.
  unfold str_of_int. intros Heq.
  assert (Hnonnil : forall z, Z.to_int z <> Decimal.Pos Decimal.Nil
                              /\ Z.to_int z <> Decimal.Neg Decimal.Nil).
  { intros [| p | p]; cbn; split; try discriminate; intros [= Hp];
      exact (Unsigned.to_uint_nonnil p Hp). }
  destruct (Hnonnil m) as [Hm1 Hm2]. destruct (Hnonnil n) as [Hn1 Hn2].
  pose proof (NilZero.isi (Z.to_int m) Hm1 Hm2) as Him.
  pose proof (NilZero.isi (Z.to_int n) Hn1 Hn2) as Hin.
  rewrite Heq, Hin in Him. injection Him as Him.
  rewrite <- (DecimalZ.of_to m), <- (DecimalZ.of_to n). now rewrite Him.
Qed.

Lemma append_inj_r (s t u : string) : s ++ t = s ++ u -> t = u.
Proof.
  induction s as [| c s IH]; cbn [append]; [trivial |].
  intros [= Heq]. exact (IH Heq).
Qed.

Lemma list_ascii_of_string_app (s t : string) :
  list_ascii_of_string (s ++ t)
  = (list_ascii_of_string s ++ list_ascii_of_string t)%list.
Proof.
  induction s as [| c s IH]; cbn [append list_ascii_of_string app];
    [reflexivity | now rewrite IH].
Qed.

Lemma list_ascii_of_string_inj (s t : string) :
  list_ascii_of_string s = list_ascii_of_string t -> s = t.
Proof.
  intros Heq. rewrite <- (string_of_list_ascii_of_string s),
    <- (string_of_list_ascii_of_string t). now rewrite Heq.
Qed.

Lemma string_of_uint_no_underscore (d : Decimal.uint) :
  ~ In "_"%char (list_ascii_of_string (NilEmpty.string_of_uint d)).
Proof.
  induction d; cbn [NilEmpty.string_of_uint list_ascii_of_string In];
    [tauto | intros [Hc | Hin]; [discriminate | exact (IHd Hin)] ..].
Qed.

Lemma str_of_int_no_underscore (n : Z) :
  ~ In "_"%char (list_ascii_of_string (str_of_int n)).
Proof.
  unfold str_of_int.
  assert (Huint : forall d,
             ~ In "_"%char (list_ascii_of_string (NilZero.string_of_uint d))).
  { intros d. unfold NilZero.string_of_uint.
    destruct d; try apply string_of_uint_no_underscore.
    cbn. intros [Hc | []]. discriminate. }
  destruct (Z.to_int n) as [d | d]; cbn [NilZero.string_of_int].
  - apply Huint.
  - cbn [list_ascii_of_string In]. intros [Hc | Hin];
      [discriminate | exact (Huint d Hin)].
Qed.

(** Two lists that agree after their first underscore-free parts. *)
Lemma split_at_underscore (x x' r r' : list ascii) :
  ~ In "_"%char x -> ~ In "_"%char x' ->
  (x ++ "_"%char :: r = x' ++ "_"%char :: r')%list -> x = x' /\ r = r'.
Proof.
  revert x'. induction x as [| c x IH]; intros [| c' x'] Hx Hx' Heq;
    cbn [app] in Heq.
  - injection Heq as Heq. now split.
  - injection Heq as Hc _. exfalso. apply Hx'. now left.
  - injection Heq as Hc _. exfalso. apply Hx. now left.
  - injection Heq as Hc Heq.
    destruct (IH x') as [-> ->]; try assumption.
    + intros Hin. apply Hx. now right.
    + intros Hin. apply Hx'. now right.
    + now subst.
Qed.

Lemma title_inj (bookname bookname' : string) (m n : Z) :
  bookname ++ "_page_" ++ str_of_int m = bookname' ++ "_page_" ++ str_of_int n
  -> bookname = bookname' /\ m = n.
Proof.
  intros Heq. apply (f_equal list_ascii_of_string) in Heq.
  rewrite !list_ascii_of_string_app in Heq.
  apply (f_equal (@rev ascii)) in Heq. rewrite !rev_app_distr in Heq.
  cbn [list_ascii_of_string rev app] in Heq. rewrite <- !app_assoc in Heq.
  cbn [app] in Heq.
  apply split_at_underscore in Heq as [Hdigits Hname].
  - split.
    + injection Hname as Hname.
      apply list_ascii_of_string_inj. rewrite <- (rev_involutive _).
      rewrite Hname. apply rev_involutive.
    + apply str_of_int_inj, list_ascii_of_string_inj.
      rewrite <- (rev_involutive _). rewrite Hdigits. apply rev_involutive.
  - rewrite <- in_rev. apply str_of_int_no_underscore.
  - rewrite <- in_rev. apply str_of_int_no_underscore.
Qed.

Section Keys.
Import ComplexDocs ComplexDocsQuery.
Context `{Externals}.

(** X3: the title identifies the page.  Two uploaded documents with the
    same title come from the same book and the same page index, whatever
    the names of the books are. *)
Theorem titles_identify_pages (bookname bookname' : string) (pg pg' : page)
  (v v' : list float) :
  doc_title (page_document bookname pg v)
  = doc_title (page_document bookname' pg' v')
  <-> bookname = bookname' /\ fst (fst pg) = fst (fst pg').
Proof.
  cbn [page_document doc_title]. split.
  - intros Heq. apply title_inj in Heq as [-> Hnum]. split; [reflexivity | lia].
  - intros [-> ->]. reflexivity.
Qed.

(** X4: within one book the id identifies the page.  If the encoding of
    the key is injective, as base64 is, two pages of a book with different
    page indices are uploaded under different ids. *)
Theorem ids_identify_pages_of_a_book (bookname : string) (pg pg' : page)
  (v v' : list float) :
  (forall s t, text_to_base64 s = text_to_base64 t -> s = t) ->
  fst (fst pg) <> fst (fst pg') ->
  doc_id (page_document bookname pg v)
  <> doc_id (page_document bookname pg' v').
Proof.
  cbn [page_document doc_id]. intros Hinj Hne Heq.
  apply Hinj, append_inj_r, str_of_int_inj in Heq. lia.
Qed.

(** X5: across books the id does not identify the page.  The first page
    of a book whose name is that of another book followed by "1" gets the
    id of the eleventh page of that other book, whatever the encoding of the
    key is, while their titles and names differ. *)
Theorem ids_collide_across_books (bookname : string) (offset offset' : Z)
  (content content' : string) (v v' : list float) :
  let first := page_document (bookname ++ "1") (0, offset, content) v in
  let eleventh := page_document bookname (10, offset', content') v' in
  doc_id first = doc_id eleventh
  /\ doc_title first <> doc_title eleventh
  /\ doc_name first <> doc_name eleventh.
Proof.
  cbn [page_document doc_id doc_title doc_name fst snd]. repeat split.
  - f_equal. change (str_of_int (0 + 1)) with "1".
    change (str_of_int (10 + 1)) with "11".
    induction bookname as [| c s IH]; cbn [append]; [reflexivity |].
    now rewrite IH.
  - intros Heq. apply title_inj in Heq as [_ Heq]. discriminate.
  - induction bookname as [| c s IH]; cbn [append]; [discriminate |].
    intros [= Heq]. exact (IH Heq).
Qed.

End Keys.

(** With the identity as encoding, pages 3 and 4 of a book have
    different ids. *)
Lemma ids_identify_pages_of_a_book_recorded_run :
  @ComplexDocs.doc_id
    (@ComplexDocsQuery.page_document ComplexDocs.recorded_run
       "images.pdf" (2, 0, "a") [])
  <> @ComplexDocs.doc_id
      (@ComplexDocsQuery.page_document ComplexDocs.recorded_run
         "images.pdf" (3, 0, "b") []).
Proof.
  apply (@ids_identify_pages_of_a_book ComplexDocs.recorded_run "images.pdf"
           (2, 0, "a") (3, 0, "b") [] [] (fun s t Heq => Heq)).
  cbn [fst]. lia.
Defined.

(** ** 04-Complex-Docs.ipynb: from the search results to the chain *)

Section FromResultsToChain.
Import ComplexDocs ComplexDocsQuery.
Context `{Externals}.
Variable prompt : Type.
Variables COMBINE_PROMPT COMBINE_QUESTION_PROMPT : prompt.

Lemma append_top_docs_map (BLOB_SAS_TOKEN : string)
  (items : list (string * search_result)) :
  forall top_docs,
    append_top_docs BLOB_SAS_TOKEN items top_docs
    = (top_docs
         ++ map (fun item : string * search_result =>
                   mk_Document (result_chunk (snd item))
                     (match result_location (snd item) with
                      | Some location => location
                      | None => ""
                      end ++ BLOB_SAS_TOKEN))
              items)%list.
Proof.
  induction items as [| [key value] rest IH]; intros top_docs;
    cbn [append_top_docs map fst snd].
  - now rewrite app_nil_r.
  - rewrite IH, <- app_assoc. reflexivity.
Qed.

(** X6: one document per search result.  The cell turns the results into
    documents one for one and in their order, each with the result's chunk
    as content and its location followed by the SAS token as source (the
    token alone where the location is missing), and the number it prints is
    the number of results. *)
Theorem top_docs_one_per_result (BLOB_SAS_TOKEN : string)
  (ordered_results : list (string * search_result)) :
  top_docs_cell BLOB_SAS_TOKEN ordered_results
  = (map (fun item : string * search_result =>
            mk_Document (result_chunk (snd item))
              (match result_location (snd item) with
               | Some location => location ++ BLOB_SAS_TOKEN
               | None => BLOB_SAS_TOKEN
               end))
       ordered_results,
     "Number of chunks: "
       ++ str_of_int (Z.of_nat (List.length ordered_results))).
Proof.
  unfold top_docs_cell. rewrite append_top_docs_map. cbn [app].
  rewrite length_map. f_equal.
  apply map_ext. intros [key [chunk [location |]]]; reflexivity.
Qed.

Lemma top_docs_nonempty (BLOB_SAS_TOKEN : string)
  (ordered_results : list (string * search_result)) :
  ordered_results <> [] ->
  fst (top_docs_cell BLOB_SAS_TOKEN ordered_results) <> [].
Proof.
  unfold top_docs_cell. rewrite append_top_docs_map. cbn [app fst].
  destruct ordered_results; [congruence | discriminate].
Qed.

(** X7: after a search with results the chain is always defined, and it
    is the one the token count calls for.  With a model budget [B] below
    [2^49] tokens, the cells that build the documents, count the tokens and
    load the chain leave a "map_reduce" chain (question prompt, combine
    prompt, intermediate steps returned) when prompt, context and completion
    tokens exceed nine tenths of [B], and a "stuff" chain (one prompt, no
    intermediate steps) otherwise; neither branch of the loader is skipped. *)
Theorem chain_after_search (BLOB_SAS_TOKEN model : string) (m : Z)
  (ordered_results : list (string * search_result)) (k : Kernel)
  (chain : option (qa_chain prompt)) :
  let top_docs := fst (top_docs_cell BLOB_SAS_TOKEN ordered_results) in
  let requested := num_tokens_from_string COMBINE_PROMPT_TEMPLATE
                   + num_tokens_from_docs top_docs + m in
  let B := model_tokens_limit model in
  ordered_results <> [] ->
  0 <= B < 2 ^ 49 ->
  exists k',
    docs_and_tokens_cells BLOB_SAS_TOKEN model m ordered_results k
    = (Returns tt, k')
    /\ load_chain_cell COMBINE_PROMPT COMBINE_QUESTION_PROMPT
         (chain_type (variables k')) chain
       = Returns
           (Some (if 9 * B <? 10 * requested
                  then mk_qa_chain "map_reduce" None
                         (Some COMBINE_QUESTION_PROMPT) (Some COMBINE_PROMPT)
                         true
                  else mk_qa_chain "stuff" (Some COMBINE_PROMPT) None None
                         false)).
Proof.
  intros top_docs requested B Hresults HB.
  pose proof (top_docs_nonempty BLOB_SAS_TOKEN ordered_results Hresults)
    as Hdocs. fold top_docs in Hdocs.
  unfold docs_and_tokens_cells.
  destruct (top_docs_cell BLOB_SAS_TOKEN ordered_results) as [docs line] eqn:Hcell.
  cbn [fst] in top_docs. subst top_docs.
  unfold bind at 1, print_line at 1, modify.
  rewrite (token_cell_nonempty model m docs _ Hdocs). cbv zeta.
  fold B. fold requested.
  rewrite (select_chain_type_exact requested B HB).
  eexists. split; [reflexivity |]. cbn [variables chain_type].
  now destruct (9 * B <? 10 * requested).
Qed.

(** X8: after a search without results the loader has nothing new to go
    by.  The two cells print "Number of chunks: 0" and the fixed message
    and leave every variable as it was, so that the loader raises
    [NameError] in a kernel that never ran a successful search, and
    otherwise acts on the chain type of an earlier search. *)
Theorem chain_after_empty_search (BLOB_SAS_TOKEN model : string) (m : Z)
  (k : Kernel) (chain : option (qa_chain prompt)) :
  exists k',
    docs_and_tokens_cells BLOB_SAS_TOKEN model m [] k = (Returns tt, k')
    /\ output k'
       = (output k
            ++ ["Number of chunks: 0"; "NO RESULTS FROM AZURE SEARCH"])%list
    /\ variables k' = variables k
    /\ match chain_type (variables k) with
       | None =>
           load_chain_cell COMBINE_PROMPT COMBINE_QUESTION_PROMPT
             (chain_type (variables k')) chain
           = Raises (mk_exn "NameError" true
                       "name 'chain_type' is not defined")
       | Some earlier =>
           load_chain_cell COMBINE_PROMPT COMBINE_QUESTION_PROMPT
             (chain_type (variables k')) chain
           = load_chain_cell COMBINE_PROMPT COMBINE_QUESTION_PROMPT
               (Some earlier) chain
       end.
Proof.
  eexists. split; [reflexivity |]. cbn [variables output].
  split; [now rewrite <- app_assoc |]. split; [reflexivity |].
  now destruct (chain_type (variables k)).
Qed.

End FromResultsToChain.

Section Monotone.
Import ComplexDocs.

Lemma int_gt_float_monotone (n n' : Z) (f : float) :
  n <= n' -> int_gt_float n f = true -> int_gt_float n' f = true.
Proof.
  intros Hle. unfold int_gt_float.
  destruct f as [s | s | | s mant e]; try trivial.
  - rewrite !Z.ltb_lt. lia.
  - destruct e as [| p | p]; rewrite !Z.ltb_lt; intros Hlt; try lia.
    eapply Z.lt_le_trans; [exact Hlt |].
    apply Z.mul_le_mono_nonneg_r; [| exact Hle].
    rewrite Z.pow_pos_fold. apply Z.pow_nonneg. lia.
Qed.

(** X9: a larger request never goes back to "stuff".  For every token
    limit, also those on which the product [0.9 * tokens_limit] is rounded,
    once a number of requested tokens selects "map_reduce" every larger
    number does. *)
Theorem select_chain_type_monotone (requested requested' limit : Z) :
  requested <= requested' ->
  select_chain_type requested limit = Returns "map_reduce" ->
  select_chain_type requested' limit = Returns "map_reduce".
Proof.
  intros Hle. unfold select_chain_type.
  destruct (float_of_int limit) as [fl | e]; [| discriminate].
  destruct (int_gt_float requested _) eqn:Hgt; [| discriminate].
  intros _. now rewrite (int_gt_float_monotone _ _ _ Hle Hgt).
Qed.

End Monotone.

(** Beyond the range of exact products: the limit of
    [select_chain_type_rounds], one token above its threshold. *)
Lemma select_chain_type_monotone_large :
  ComplexDocs.select_chain_type 4503600000000007 5004000000000005
  = Returns "map_reduce".
Proof.
  apply (select_chain_type_monotone 4503600000000006 4503600000000007
           5004000000000005).
  - lia.
  - vm_compute. reflexivity.
Defined.

(** The two results of a search, against the recorded budget. *)
Lemma chain_after_search_two_results :
  exists k',
    @ComplexDocsQuery.docs_and_tokens_cells ComplexDocs.recorded_run
      "?sv=token" ComplexDocs.MODEL ComplexDocs.COMPLETION_TOKENS
      ComplexDocsQuery.two_results
      (ComplexDocs.mk_Kernel ComplexDocs.empty_namespace [])
    = (Returns tt, k')
    /\ @ComplexDocsQuery.load_chain_cell string "COMBINE_PROMPT"
         "COMBINE_QUESTION_PROMPT"
         (ComplexDocs.chain_type (ComplexDocs.variables k')) None
       = Returns (Some (ComplexDocsQuery.mk_qa_chain "stuff"
                          (Some "COMBINE_PROMPT") None None false)).
Proof.
  apply (@chain_after_search ComplexDocs.recorded_run string "COMBINE_PROMPT"
           "COMBINE_QUESTION_PROMPT" "?sv=token" ComplexDocs.MODEL
           ComplexDocs.COMPLETION_TOKENS ComplexDocsQuery.two_results
           (ComplexDocs.mk_Kernel ComplexDocs.empty_namespace []) None).
  - discriminate.
  - simpl. lia.
Defined.

(** ** 06-TabularDataQA.ipynb: the retry loop against any agent *)

Section RetryFiveAnyAgent.
Import TabularDataQA TabularDataQARuns.
Context `{Externals}.







End RetryFiveAnyAgent.


(** ** 06-TabularDataQA.ipynb: the evaluation cells *)

Section Evaluation.
Import TabularEvaluation.

Lemma digit_compare (a b : Z) :
  0 <= a < 10 -> 0 <= b < 10 ->
  (digit a ?= digit b)%char = (a ?= b).
Proof.
  intros Ha Hb. unfold digit, Ascii.compare.
  rewrite !N_ascii_embedding by lia.
  rewrite Z2N.inj_compare by lia.
  apply Z.add_compare_mono_l.
Qed.

Lemma compare_two_digits (a b : Z) (s t : string) :
  0 <= a < 100 -> 0 <= b < 100 ->
  (two_digits a ++ s ?= two_digits b ++ t)%string
  = match a ?= b with
    | Eq => (s ?= t)%string
    | c => c
    end.
Proof.
  intros Ha Hb. unfold two_digits. cbn [append String.compare].
  pose proof (Z.div_mod a 10 ltac:(lia)) as Ha10.
  pose proof (Z.div_mod b 10 ltac:(lia)) as Hb10.
  pose proof (Z.mod_pos_bound a 10 ltac:(lia)) as Har.
  pose proof (Z.mod_pos_bound b 10 ltac:(lia)) as Hbr.
  rewrite !digit_compare by lia.
  destruct (Z.compare_spec (a / 10) (b / 10)) as [Hq | Hq | Hq];
    destruct (Z.compare_spec (a mod 10) (b mod 10)) as [Hr | Hr | Hr];
    destruct (Z.compare_spec a b) as [Hab | Hab | Hab];
    try reflexivity; lia.
Qed.

(** Dates in the format of the file are ordered as strings the way they
    are ordered as dates. *)
Lemma compare_iso_date (y1 m1 d1 y2 m2 d2 : Z) :
  0 <= y1 < 10000 -> 0 <= m1 < 100 -> 0 <= d1 < 100 ->
  0 <= y2 < 10000 -> 0 <= m2 < 100 -> 0 <= d2 < 100 ->
  (iso_date y1 m1 d1 ?= iso_date y2 m2 d2)%string
  = match y1 ?= y2 with
    | Eq => match m1 ?= m2 with
            | Eq => d1 ?= d2
            | c => c
            end
    | c => c
    end.
Proof.
  intros Hy1 Hm1 Hd1 Hy2 Hm2 Hd2. unfold iso_date.
  pose proof (Z.div_mod y1 100 ltac:(lia)) as Hy1c.
  pose proof (Z.div_mod y2 100 ltac:(lia)) as Hy2c.
  pose proof (Z.mod_pos_bound y1 100 ltac:(lia)) as Hy1r.
  pose proof (Z.mod_pos_bound y2 100 ltac:(lia)) as Hy2r.
  rewrite compare_two_digits by lia.
  rewrite compare_two_digits by lia.
  cbn [append String.compare]. change ("-" ?= "-")%char with Eq.
  rewrite compare_two_digits by assumption.
  cbn [append String.compare]. change ("-" ?= "-")%char with Eq.
  change (two_digits d1) with (two_digits d1 ++ "").
  change (two_digits d2) with (two_digits d2 ++ "").
  rewrite compare_two_digits by assumption. cbn [String.compare].
  destruct (Z.compare_spec (y1 / 100) (y2 / 100)) as [Hq | Hq | Hq];
    destruct (Z.compare_spec (y1 mod 100) (y2 mod 100)) as [Hr | Hr | Hr];
    destruct (Z.compare_spec y1 y2) as [Hy | Hy | Hy];
    try reflexivity; try lia.
  all: destruct (m1 ?= m2); try reflexivity;
    destruct (d1 ?= d2); reflexivity.
Qed.

(** X12: the string comparison of the dates selects July 2020.  For a row
    whose date is written [YYYY-MM-DD], the mask of the evaluation cell is
    true exactly when the year is 2020, the month is 7 and the day is
    between 1 and 31. *)
Theorem july_2020_selects_july (r : row) (year month day : Z) :
  0 <= year < 10000 -> 0 <= month < 100 -> 0 <= day < 100 ->
  date r = iso_date year month day ->
  (in_july_2020 r = true <-> year = 2020 /\ month = 7 /\ 1 <= day <= 31).
Proof.
  intros Hy Hm Hd Hdate. unfold in_july_2020, String.leb. rewrite Hdate.
  change "2020-07-01" with (iso_date 2020 7 1).
  change "2020-07-31" with (iso_date 2020 7 31).
  rewrite !compare_iso_date by (try assumption; lia).
  destruct (Z.compare_spec 2020 year) as [Hy' | Hy' | Hy'];
    destruct (Z.compare_spec year 2020) as [Hy'' | Hy'' | Hy'']; try lia;
    try (cbn; split; [discriminate | lia]).
  destruct (Z.compare_spec 7 month) as [Hm' | Hm' | Hm'];
    destruct (Z.compare_spec month 7) as [Hm'' | Hm'' | Hm'']; try lia;
    try (cbn; split; [discriminate | lia]).
  destruct (Z.compare_spec 1 day) as [Hd' | Hd' | Hd'];
    destruct (Z.compare_spec day 31) as [Hd'' | Hd'' | Hd''];
    cbn; split; try discriminate; try lia; try reflexivity.
Qed.


Lemma wrap64_add_l (a b : Z) : wrap64 (wrap64 a + b) = wrap64 (a + b).
Proof.
  unfold wrap64. f_equal.
  replace ((a + 2 ^ 63) mod 2 ^ 64 - 2 ^ 63 + b + 2 ^ 63)
    with ((a + 2 ^ 63) mod 2 ^ 64 + b) by ring.
  rewrite Z.add_mod_idemp_l by (apply Z.pow_nonzero; lia).
  f_equal. ring.
Qed.

Lemma wrap64_add_r (a b : Z) : wrap64 (a + wrap64 b) = wrap64 (a + b).
Proof. now rewrite Z.add_comm, wrap64_add_l, Z.add_comm. Qed.

Lemma fold_wrap64 (column : list Z) :
  forall acc,
    fold_left (fun acc n => wrap64 (acc + n)) column (wrap64 acc)
    = wrap64 (acc + fold_right Z.add 0 column).
Proof.
  induction column as [| n rest IH]; intros acc; cbn [fold_left fold_right].
  - now rewrite Z.add_0_r.
  - rewrite wrap64_add_l, IH. f_equal. ring.
Qed.

(** The wrapped running sum is the exact sum, wrapped once. *)
Lemma sum_wrap (column : list Z) :
  TabularEvaluation.sum column = wrap64 (fold_right Z.add 0 column).
Proof.
  unfold TabularEvaluation.sum. change 0 with (wrap64 0) at 1.
  now rewrite fold_wrap64.
Qed.

Lemma exact_sum_partition (keep : row -> bool) (rows : list row) :
  fold_right Z.add 0 (map hospitalizedIncrease rows)
  = fold_right Z.add 0 (map hospitalizedIncrease (filter keep rows))
    + fold_right Z.add 0
        (map hospitalizedIncrease (filter (fun r => negb (keep r)) rows)).
Proof.
  induction rows as [| r rest IH]; cbn [filter map fold_right]; [reflexivity |].
  destruct (keep r); cbn [negb map fold_right]; lia.
Qed.

Lemma exact_sum_permutation (column column' : list Z) :
  Permutation column column' ->
  fold_right Z.add 0 column = fold_right Z.add 0 column'.
Proof.
  induction 1; cbn [fold_right]; lia.
Qed.

Lemma filter_permutation {A : Type} (keep : A -> bool) (l l' : list A) :
  Permutation l l' -> Permutation (filter keep l) (filter keep l').
Proof.
  induction 1; cbn [filter].
  - constructor.
  - destruct (keep x); [now constructor | assumption].
  - destruct (keep x), (keep y); try apply Permutation_refl.
    + apply perm_swap.
  - eapply Permutation_trans; eassumption.
Qed.

Lemma july_2020_idempotent (df : list row) :
  july_2020 (july_2020 df) = july_2020 df.
Proof.
  unfold july_2020. induction df as [| r rest IH]; cbn [filter];
    [reflexivity |].
  destruct (in_july_2020 r) eqn:Hr; cbn [filter]; [| exact IH].
  rewrite Hr. now f_equal.
Qed.

(** X13: Texas and the other states add up to the nation.  The nationwide
    total of the evaluation is the Texas total plus the total of the July
    rows of the other states, as 64-bit integers. *)
Theorem nationwide_is_texas_plus_others (df : list row) :
  nationwide_hospitalized_july_2020 df
  = wrap64
      (texas_hospitalized_july_2020 df
       + TabularEvaluation.sum
           (map hospitalizedIncrease
              (filter (fun r => negb (state r =? "TX")%string) (july_2020 df)))).
Proof.
  unfold nationwide_hospitalized_july_2020, texas_hospitalized_july_2020.
  rewrite !sum_wrap, wrap64_add_l, wrap64_add_r.
  f_equal. apply exact_sum_partition.
Qed.

(** X14: the totals do not depend on the order of the rows, and rows
    outside July 2020 do not count: a dataframe with the same rows in
    another order gives the same two totals, and so does its July part
    alone. *)
Theorem totals_by_rows (df df' : list row) :
  Permutation df df' ->
  texas_hospitalized_july_2020 df = texas_hospitalized_july_2020 df'
  /\ nationwide_hospitalized_july_2020 df
     = nationwide_hospitalized_july_2020 df'
  /\ texas_hospitalized_july_2020 (july_2020 df)
     = texas_hospitalized_july_2020 df
  /\ nationwide_hospitalized_july_2020 (july_2020 df)
     = nationwide_hospitalized_july_2020 df.
Proof.
  intros Hperm.
  unfold nationwide_hospitalized_july_2020, texas_hospitalized_july_2020.
  rewrite !sum_wrap. repeat split.
  - f_equal. apply exact_sum_permutation, Permutation_map.
    now do 2 apply filter_permutation.
  - f_equal. apply exact_sum_permutation, Permutation_map.
    now apply filter_permutation.
  - now rewrite july_2020_idempotent.
  - now rewrite july_2020_idempotent.
Qed.

End Evaluation.

(** The last day of July is selected. *)
Lemma july_2020_selects_july_last_day :
  TabularEvaluation.in_july_2020 (TabularEvaluation.mk_row "2020-07-31" "AZ" 75)
  = true.
Proof.
  apply (proj2 (july_2020_selects_july
                  (TabularEvaluation.mk_row "2020-07-31" "AZ" 75) 2020 7 31
                  ltac:(lia) ltac:(lia) ltac:(lia) eq_refl)).
  lia.
Defined.

(** Reversing the sample rows changes neither total. *)
Lemma totals_by_rows_reversed :
  TabularEvaluation.evaluation_line (rev TabularEvaluation.sample_rows)
  = TabularEvaluation.evaluation_line TabularEvaluation.sample_rows.
Proof.
  destruct (totals_by_rows TabularEvaluation.sample_rows
              (rev TabularEvaluation.sample_rows)
              (Permutation_rev TabularEvaluation.sample_rows))
    as [Htexas [Hnation _]].
  unfold TabularEvaluation.evaluation_line. now rewrite Htexas, Hnation.
Defined.

(** ** 09-API-Search.ipynb: the retry loop against any agent *)

Section RetryTwoAnyAgent.
Import APISearch APISearchDisplay.
Context `{Externals}.





End RetryTwoAnyAgent.


(** ** 09-API-Search.ipynb: [printmd] *)

Section Printmd.
Import APISearchDisplay.

Lemma replace_dollar_no_dollar (text : string) :
  ~ In "$"%char (list_ascii_of_string (replace_dollar text)).
Proof.
  induction text as [| c rest IH]; cbn [replace_dollar list_ascii_of_string].
  - intros [].
  - destruct (Ascii.eqb_spec c "$") as [-> | Hc].
    + cbn [append list_ascii_of_string].
      intros [Hin | [Hin | [Hin | [Hin | Hin]]]];
        try discriminate Hin. now apply IH.
    + cbn [list_ascii_of_string]. intros [Hin | Hin]; [congruence |].
      now apply IH.
Qed.

Lemma replace_dollar_length (text : string) :
  String.length (replace_dollar text)
  = (String.length text + 3 * count_dollar text)%nat.
Proof.
  induction text as [| c rest IH]; cbn [replace_dollar count_dollar String.length].
  - reflexivity.
  - destruct (c =? "$")%char; cbn [append String.length]; rewrite IH; lia.
Qed.

Lemma replace_dollar_without_dollar (text : string) :
  ~ In "$"%char (list_ascii_of_string text) -> replace_dollar text = text.
Proof.
  induction text as [| c rest IH]; cbn [replace_dollar list_ascii_of_string];
    [reflexivity |].
  intros Hnot. destruct (Ascii.eqb_spec c "$") as [-> | Hc].
  - exfalso. apply Hnot. now left.
  - f_equal. apply IH. intros Hin. apply Hnot. now right.
Qed.

(** X17: [printmd] of notebook 09 never shows a dollar sign.  The line it
    displays contains no ["$"]; it is longer than the text by three
    characters for each ["$"] of the text; and a text without ["$"] is
    displayed as it is.  Nothing else is displayed and no call is made. *)
Theorem printmd_shows_no_dollar (E : Type) (text : string) (w : World E) :
  exists line,
    printmd text w = (Returns tt, mk_World (trace w) (stdout w ++ [line]))
    /\ ~ In "$"%char (list_ascii_of_string line)
    /\ String.length line = (String.length text + 3 * count_dollar text)%nat
    /\ (~ In "$"%char (list_ascii_of_string text) -> line = text).
Proof.
  exists (replace_dollar text). split; [reflexivity |].
  split; [apply replace_dollar_no_dollar |].
  split; [apply replace_dollar_length | apply replace_dollar_without_dollar].
Qed.

(** X18: replacing is idempotent and goes through concatenation.  A text
    that was already displayed is displayed unchanged, and the display of a
    concatenation is the concatenation of the displays. *)
Theorem replace_dollar_idempotent_app (text more : string) :
  replace_dollar (replace_dollar text) = replace_dollar text
  /\ replace_dollar (text ++ more) = replace_dollar text ++ replace_dollar more.
Proof.
  split.
  - apply replace_dollar_without_dollar, replace_dollar_no_dollar.
  - induction text as [| c rest IH]; cbn [replace_dollar append];
      [reflexivity |].
    rewrite IH. now destruct (c =? "$")%char.
Qed.

End Printmd.

(** A text without a dollar sign is displayed as it is. *)
Lemma printmd_shows_no_dollar_plain_text :
  @APISearchDisplay.printmd APISearch.event "Argentina: 35716069 tests"
    initial_world
  = (Returns tt, mk_World [] ["Argentina: 35716069 tests"]).
Proof.
  destruct (printmd_shows_no_dollar APISearch.event
              "Argentina: 35716069 tests" initial_world)
    as [line [Hrun [_ [_ Hsame]]]].
  rewrite Hrun, Hsame; [reflexivity |].
  cbn. intros Hin.
  repeat (destruct Hin as [Hin | Hin]; [discriminate Hin |]). exact Hin.
Defined.

(** ** 09-API-Search.ipynb: a transport failure in the schema-less tool *)

Section TransportFailure.
Import APISearch.
Context `{Externals}.

(** X19: the schema-less tool does not catch a failing request.  Its
    handler covers the parsing of the response only: when [requests.get]
    raises, also an [Exception] such as a connection error, the tool raises
    that same exception after its one request and returns nothing. *)
Theorem schemaless_transport_failure (self : MySimpleAPISearch)
  (query : string) (w : World event) (e : exn) :
  http_answer countdown_endpoint (search_params self query) [] (trace w)
  = Raises e ->
  MySimpleAPISearch_run self query w
  = (Raises e,
     mk_World
       (trace w ++ [HttpGet countdown_endpoint (search_params self query) []])
       (stdout w)).
Proof.
  intros Hget.
  unfold MySimpleAPISearch_run, bind, requests_get, external.
  now rewrite Hget.
Qed.

End TransportFailure.

(** During an outage the tool raises the connection error. *)
Lemma schemaless_transport_failure_outage :
  @APISearch.MySimpleAPISearch_run APISearch.outage
    (APISearch.mk_MySimpleAPISearch "demo") "memory cards" initial_world
  = (Raises APISearch.ConnectionError,
     mk_World
       [APISearch.HttpGet APISearch.countdown_endpoint
          (APISearch.search_params (APISearch.mk_MySimpleAPISearch "demo")
             "memory cards") []]
       []).
Proof.
  exact (@schemaless_transport_failure APISearch.outage
           (APISearch.mk_MySimpleAPISearch "demo") "memory cards"
           initial_world APISearch.ConnectionError eq_refl).
Defined.
